(** * py2md: a shallow embedding of docs/py2md.py

    The program scans Python source files for a leading summary line and
    for function definitions with their docstrings, and renders the
    collected metadata as one markdown document.

    Modelling conventions.
    - A Python [str] is a [string]; each [ascii] stands for one character
      whose code point is below 256.
    - A Python [int] used as a list subscript is a [Z]; subscripting follows
      Python (negative subscripts count from the end, anything outside
      [-len, len) raises [IndexError]).
    - A call either returns a value or raises; [outcome] records which.
      The only loop that is not a [for] over a list, the [while] of
      [extract_code], runs on fuel computed from its arguments;
      [OutOfFuel] marks an exhausted budget and is shown unreachable.
    - The dictionaries of the program have fixed keys and are records;
      the optional key ['comments'] is an [option] field.
    - The file system, the directory listing and the clock are read
      through an [env] record, which says for each path how reading it
      and writing to it end; what the program prints and does to files
      is the list of [event]s every effectful function returns next to
      its outcome. *)

From Stdlib Require Import String Ascii List ZArith Lia Bool Arith DecimalString.
Import ListNotations.
Local Open Scope string_scope.
Local Open Scope Z_scope.

(** ** Outcomes of Python calls *)

Inductive exn : Type :=
| IndexError (subscript : Z)      (* list index out of range *)
| ValueError (message : string)   (* empty separator, value not in list *)
| OSError (path : string)         (* a file that cannot be opened, read
                                     or written *)
| UnicodeDecodeError (path : string)  (* a file whose bytes are no text *)
| UnicodeEncodeError (path : string). (* a text the file cannot take *)

Definition exn_class (e : exn) : string :=
  match e with
  | IndexError _ => "IndexError"
  | ValueError _ => "ValueError"
  | OSError _ => "OSError"
  | UnicodeDecodeError _ => "UnicodeDecodeError"
  | UnicodeEncodeError _ => "UnicodeEncodeError"
  end.

Inductive outcome (A : Type) : Type :=
| Ok (value : A)
| Raise (error : exn)
| OutOfFuel.

Arguments Ok {A} value.
Arguments Raise {A} error.
Arguments OutOfFuel {A}.

Definition bind {A B : Type} (m : outcome A) (k : A -> outcome B) : outcome B :=
  match m with
  | Ok a => k a
  | Raise e => Raise e
  | OutOfFuel => OutOfFuel
  end.

Notation "x <- m ;; k" := (bind m (fun x => k))
  (at level 61, m at next level, right associativity).

(** ** Python string and list primitives *)

Module PyStr.

(** [s.startswith(p)] *)
Fixpoint startswith (p s : string) : bool :=
  match p, s with
  | EmptyString, _ => true
  | String _ _, EmptyString => false
  | String a p', String b s' => Ascii.eqb a b && startswith p' s'
  end.

(** [sub in s] *)
Fixpoint contains (sub s : string) : bool :=
  match s with
  | EmptyString => startswith sub EmptyString
  | String _ s' => startswith sub s || contains sub s'
  end.

(** [s.split(sep)[0]] for a non-empty [sep]: the text before the first
    occurrence of [sep], all of [s] when there is none. *)
Fixpoint split_head (sep s : string) : string :=
  match s with
  | EmptyString => EmptyString
  | String c s' => if startswith sep s then EmptyString
                   else String c (split_head sep s')
  end.

(** [s.split(sep)[0]]; Python refuses the empty separator. *)
Definition split0 (sep s : string) : outcome string :=
  if String.eqb sep EmptyString then Raise (ValueError "empty separator")
  else Ok (split_head sep s).

(** [s[n:]] for [n >= 0] *)
Fixpoint drop (n : nat) (s : string) : string :=
  match n, s with
  | O, _ => s
  | S _, EmptyString => EmptyString
  | S n', String _ s' => drop n' s'
  end.

(** [s[:-1]] *)
Fixpoint all_but_last (s : string) : string :=
  match s with
  | EmptyString => EmptyString
  | String c s' => match s' with
                   | EmptyString => EmptyString
                   | String _ _ => String c (all_but_last s')
                   end
  end.

(** [c in chars] for a single character *)
Fixpoint mem (c : ascii) (chars : string) : bool :=
  match chars with
  | EmptyString => false
  | String d chars' => Ascii.eqb c d || mem c chars'
  end.

(** [s.lstrip(chars)], [s.rstrip(chars)], [s.strip(chars)] *)
Fixpoint lstrip_chars (chars s : string) : string :=
  match s with
  | EmptyString => EmptyString
  | String c s' => if mem c chars then lstrip_chars chars s' else s
  end.

Fixpoint rstrip_chars (chars s : string) : string :=
  match s with
  | EmptyString => EmptyString
  | String c s' =>
      match rstrip_chars chars s' with
      | EmptyString => if mem c chars then EmptyString
                       else String c EmptyString
      | String d t => String c (String d t)
      end
  end.

Definition strip_chars (chars s : string) : string :=
  rstrip_chars chars (lstrip_chars chars s).

(** [c.isspace()] on code points below 256: tab to carriage return,
    the four separators 28..31, space, next-line and no-break space. *)
Definition isspace (c : ascii) : bool :=
  let n := nat_of_ascii c in
  ((9 <=? n) && (n <=? 13) || (28 <=? n) && (n <=? 32)
   || (n =? 133) || (n =? 160))%nat.

(** [s.lstrip()] *)
Fixpoint lstrip (s : string) : string :=
  match s with
  | EmptyString => EmptyString
  | String c s' => if isspace c then lstrip s' else s
  end.

(** [s.replace(old, new)]: occurrences of [old] are replaced from left
    to right without overlap.  [skip] counts the characters of an
    occurrence already replaced that are still to be passed over.  With
    an empty [old] Python puts [new] before every character and at the
    end. *)
Fixpoint replace_from (old new s : string) (skip : nat) : string :=
  match s with
  | EmptyString => EmptyString
  | String c s' =>
      match skip with
      | S k => replace_from old new s' k
      | O => if startswith old s
             then new ++ replace_from old new s' (String.length old - 1)
             else String c (replace_from old new s' O)
      end
  end.

Fixpoint intersperse (new s : string) : string :=
  match s with
  | EmptyString => new
  | String c s' => new ++ String c (intersperse new s')
  end.

Definition replace (old new s : string) : string :=
  match old with
  | EmptyString => intersperse new s
  | String _ _ => replace_from old new s O
  end.

(** [c.lower()] on code points below 256: A..Z and the accented capitals
    192..222 other than the multiplication sign 215 move up by 32. *)
Definition lower_char (c : ascii) : ascii :=
  let n := nat_of_ascii c in
  if ((65 <=? n) && (n <=? 90)
      || (192 <=? n) && (n <=? 222) && negb (n =? 215))%nat
  then ascii_of_nat (n + 32) else c.

(** [s.lower()] *)
Fixpoint lower (s : string) : string :=
  match s with
  | EmptyString => EmptyString
  | String c s' => String (lower_char c) (lower s')
  end.

(** [str(n)] for a non-negative integer *)
Definition str_of_nat (n : nat) : string :=
  NilEmpty.string_of_uint (Nat.to_uint n).

(** The concatenation of a list of strings, in order. *)
Definition join (l : list string) : string :=
  fold_right String.append EmptyString l.

(** [l[i]] *)
Definition getitem {A : Type} (l : list A) (i : Z) : outcome A :=
  let len := Z.of_nat (List.length l) in
  let pos := if i <? 0 then len + i else i in
  if (pos <? 0) || (len <=? pos) then Raise (IndexError i)
  else match nth_error l (Z.to_nat pos) with
       | Some x => Ok x
       | None => Raise (IndexError i)
       end.

(** [l.index(x)] *)
Fixpoint index (x : string) (l : list string) : outcome Z :=
  match l with
  | [] => Raise (ValueError "value is not in list")
  | y :: l' => if String.eqb y x then Ok 0
               else (i <- index x l' ;; Ok (i + 1))
  end.

End PyStr.

Import PyStr.

(** ** docs/py2md.py *)

(** [extract_code], lines 7-30.  [extract_loop] is the [while] of lines
    22-28: [line_num] has been advanced already, [current_str] is the text
    accumulated so far. *)
Fixpoint extract_loop (fuel : nat) (end_mark current_str : string)
    (str_array : list string) (line_num : Z) : outcome (string * Z) :=
  next_line <- getitem str_array line_num ;;
  if contains end_mark next_line
  then Ok (current_str ++ next_line, line_num)
  else match fuel with
       | O => OutOfFuel
       | S fuel' =>
           extract_loop fuel' end_mark (current_str ++ next_line)
             str_array (line_num + 1)
       end.

(** The positions left from [line_num] to the end of the list bound the
    passes of the loop. *)
Definition extract_fuel (str_array : list string) (line_num : Z) : nat :=
  Z.to_nat (Z.of_nat (List.length str_array) - line_num).

(** [extract_code], lines 19-30. *)
Definition extract_code (end_mark current_str : string)
    (str_array : list string) (line_num : Z) : outcome (string * Z) :=
  r <- (if contains end_mark current_str then Ok (current_str, line_num)
        else extract_loop (extract_fuel str_array (line_num + 1)) end_mark
               current_str str_array (line_num + 1)) ;;
  clean_str <- split0 end_mark (fst r) ;;
  Ok (clean_str, snd r).


(** The dictionaries built by [process_file] and [main]. *)
Record function_info : Type := {
  name : string;
  definition : string;
  comments : option string
}.

Record file_dict : Type := {
  source_file : string;
  summary_comment : string;
  functions : list function_info
}.

Record meta_file : Type := {
  header : string;
  modules : list file_dict
}.

(** The parsed command line, lines 129-147. *)
Record arguments : Type := {
  sourcedir : string;
  docfile : string;
  projectname : option string;
  codelinks : bool
}.

(** How lines 48-49 end for a path: [open] and [readlines] give the
    lines; [open], or the reading itself, raises [OSError]; the file
    opens and [readlines] raises [UnicodeDecodeError] because its bytes
    are no text in the encoding in use. *)
Inductive read_result : Type :=
| Lines (ls : list string)
| ReadFails
| DecodeFails.

(** How lines 121-123 end for a path: [open], [write] and [close] all
    succeed; [open(..., 'w')] raises [OSError] and the file is not
    touched; the file is opened, which empties it, and [write] raises
    [UnicodeEncodeError]; the file is opened and [write] or [close]
    raises [OSError]. *)
Inductive write_result : Type :=
| WriteOk
| OpenFails
| EncodeFails
| WriteFails.

(** What the program reads from outside: [glob.glob], how reading each
    path ends, [time.strftime], and how writing to each path ends. *)
Record env : Type := {
  glob : string -> list string;
  read_file : string -> read_result;
  strftime : string -> string;
  write_file : string -> write_result
}.

(** The lines [readlines] gives for a path, [None] when reading it
    raises. *)
Definition readlines (e : env) (path : string) : option (list string) :=
  match read_file e path with
  | Lines ls => Some ls
  | ReadFails | DecodeFails => None
  end.


(** What the program does to the outside, in order: a line printed, a
    file opened, written in full and closed, and a file opened for
    writing whose writing then failed, so that its former content is
    gone and it holds at most a part of the new one. *)
Inductive event : Type :=
| Printed (line : string)
| Written (path content : string)
| Clobbered (path : string).

Definition io (A : Type) : Type := (list event * outcome A)%type.

Definition ret {A : Type} (a : A) : io A := ([], Ok a).

Definition lift {A : Type} (m : outcome A) : io A := ([], m).

Definition print (line : string) : io unit := ([Printed line], Ok tt).

Definition io_bind {A B : Type} (m : io A) (k : A -> io B) : io B :=
  match snd m with
  | Ok a => ((fst m ++ fst (k a))%list, snd (k a))
  | Raise e => (fst m, Raise e)
  | OutOfFuel => (fst m, OutOfFuel)
  end.

Notation "x <<- m ;; k" := (io_bind m (fun x => k))
  (at level 61, m at next level, right associativity).

Definition LF : string := String "010"%char EmptyString.
Definition backslash : string := String "092"%char EmptyString.

(** A [for] loop over a list whose body may raise. *)
Fixpoint for_each {S A : Type} (body : S -> A -> outcome S) (l : list A)
    (s : S) : outcome S :=
  match l with
  | [] => Ok s
  | x :: l' => s' <- body s x ;; for_each body l' s'
  end.

(** [process_file], the body of the loop of lines 62-79: [fns] is
    [file_dict['functions']] before the iteration, the result is the list
    after it. *)
Definition scan_line (pyfile_str : list string)
    (fns : list function_info) (line : string)
    : outcome (list function_info) :=
  if startswith "def " line then
    line_num <- index line pyfile_str ;;
    let fn_def := drop 4 line in
    fn_name <- split0 "(" fn_def ;;
    extract <- extract_code ":" fn_def pyfile_str line_num ;;
    let line_num := snd extract + 1 in
    doc_line <- getitem pyfile_str line_num ;;
    if startswith "    '''" doc_line then
      let comment_str := drop 7 doc_line in
      extract' <- extract_code "'''" comment_str pyfile_str line_num ;;
      Ok (fns ++ [ {| name := fn_name;
                      definition := fst extract;
                      comments := Some (fst extract') |} ])%list
    else
      Ok (fns ++ [ {| name := fn_name;
                      definition := fst extract;
                      comments := None |} ])%list
  else Ok fns.

(** [process_file], lines 51-80: everything after the file has been read
    into [pyfile_str]. *)
Definition process_lines (pyfile_name : string) (pyfile_str : list string)
    : outcome file_dict :=
  let source := replace backslash "/" pyfile_name in
  first_line <- getitem pyfile_str 0 ;;
  let summary :=
    if startswith "'''" first_line
    then strip_chars "'" (all_but_last first_line)
    else pyfile_name in
  fns <- for_each (scan_line pyfile_str) pyfile_str [] ;;
  Ok {| source_file := source; summary_comment := summary; functions := fns |}.

(** [process_file], lines 33-80. *)
Definition process_file (e : env) (pyfile_name : string) : io file_dict :=
  _ <<- print ("Processing file: " ++ pyfile_name) ;;
  pyfile_str <<- lift (match read_file e pyfile_name with
                       | Lines ls => Ok ls
                       | ReadFails => Raise (OSError pyfile_name)
                       | DecodeFails => Raise (UnicodeDecodeError pyfile_name)
                       end) ;;
  lift (process_lines pyfile_name pyfile_str).

(** [process_output], lines 101-106: one pass of the contents loop over
    the pair of [chapter_num] and [doc_str]. *)
Definition contents_step (st : nat * string) (meta_doc : file_dict)
    : nat * string :=
  let (chapter_num, doc_str) := st in
  let chapter_name := summary_comment meta_doc in
  let chapter_link :=
    lower (replace " " "-" (replace "." "" (lstrip chapter_name))) in
  (S chapter_num,
   doc_str ++ str_of_nat chapter_num
     ++ ". [" ++ chapter_name ++ "](#" ++ chapter_link ++ ")" ++ LF).

(** [process_output], lines 113-117. *)
Definition function_step (doc_str : string) (fi : function_info) : string :=
  let doc_str := doc_str ++ "### " ++ name fi ++ LF in
  let doc_str := doc_str ++ definition fi ++ LF ++ LF in
  match comments fi with
  | Some c => doc_str ++ "```" ++ LF ++ c ++ LF ++ "```" ++ LF ++ LF
  | None => doc_str
  end.

(** [process_output], lines 110-117. *)
Definition module_step (doc_str : string) (meta_doc : file_dict) : string :=
  let doc_str := doc_str ++ "## " ++ summary_comment meta_doc ++ LF in
  let doc_str :=
    doc_str ++ "[source file](" ++ source_file meta_doc ++ ")" ++ LF in
  fold_left function_step (functions meta_doc) doc_str.

(** [process_output], lines 91-117: the text of the document. *)
Definition render (e : env) (mf : meta_file) : string :=
  let doc_str := "# " ++ header mf ++ LF in
  let doc_str :=
    doc_str
      ++ "Generated by [py2md](https://github.com/gbowerman/py2md) on " in
  let doc_str := doc_str ++ strftime e "%Y-%m-%d %H:%M:%S " ++ LF ++ LF in
  let doc_str :=
    if (1 <? List.length (modules mf))%nat
    then snd (fold_left contents_step (modules mf)
                (1%nat, doc_str ++ "## Contents" ++ LF))
    else doc_str in
  fold_left module_step (modules mf) doc_str.

(** [process_output], lines 83-123. *)
Definition process_output (e : env) (mf : meta_file) (outfile_name : string)
    (code_links : bool) : io unit :=
  let doc_str := render e mf in
  _ <<- print ("Writing file: " ++ outfile_name) ;;
  match write_file e outfile_name with
  | WriteOk => ([Written outfile_name doc_str], Ok tt)
  | OpenFails => lift (Raise (OSError outfile_name))
  | EncodeFails =>
      ([Clobbered outfile_name], Raise (UnicodeEncodeError outfile_name))
  | WriteFails => ([Clobbered outfile_name], Raise (OSError outfile_name))
  end.

(** [main], the loop of lines 154-159 over the paths [glob.glob] gave;
    [mods] is [meta_doc['modules']]. *)
Fixpoint main_loop (e : env) (paths : list string) (mods : list file_dict)
    : io (list file_dict) :=
  match paths with
  | [] => ret mods
  | source :: rest =>
      if contains "__" source then
        _ <<- print ("Skipping: " ++ source) ;;
        main_loop e rest mods
      else
        file_meta_doc <<- process_file e source ;;
        main_loop e rest (mods ++ [file_meta_doc])%list
  end.

(** [main], lines 142-162, from the parsed arguments on. *)
Definition main (e : env) (args : arguments) : io unit :=
  let source_dir := sourcedir args in
  let doc_file := docfile args in
  let code_links := codelinks args in
  let proj_name := match projectname args with
                   | Some n => n
                   | None => source_dir
                   end in
  mods <<- main_loop e (glob e (source_dir ++ "/*.py")) [] ;;
  process_output e {| header := proj_name ++ " Technical Reference Guide";
                      modules := mods |} doc_file code_links.

(** ** Vocabulary of the statements *)

(** The lines [str_array[i]], [str_array[i+1]], ... : [n] of them, fewer
    when a subscript leaves the list. *)
Fixpoint lines_from (str_array : list string) (i : Z) (n : nat)
    : list string :=
  match n with
  | O => []
  | S n' => match getitem str_array i with
            | Ok l => l :: lines_from str_array (i + 1) n'
            | _ => []
            end
  end.

(** [sub] occurs in [s] with [p] before it. *)
Definition occurs_at (sub s p : string) : Prop :=
  exists r, s = p ++ sub ++ r.

(** [text] is [s] cut at the first occurrence of [sub]. *)
Definition truncated_at_first (sub s text : string) : Prop :=
  occurs_at sub s text /\
  forall p, occurs_at sub s p -> (String.length text <= String.length p)%nat.

(** The title lines of the document, lines 92-94. *)
Definition title_text (e : env) (mf : meta_file) : string :=
  "# " ++ header mf ++ LF
  ++ "Generated by [py2md](https://github.com/gbowerman/py2md) on "
  ++ strftime e "%Y-%m-%d %H:%M:%S " ++ LF ++ LF.

(** What one function adds to the document. *)
Definition function_text (fi : function_info) : string :=
  "### " ++ name fi ++ LF ++ definition fi ++ LF ++ LF
  ++ match comments fi with
     | Some c => "```" ++ LF ++ c ++ LF ++ "```" ++ LF ++ LF
     | None => ""
     end.

(** What one file adds to the body of the document. *)
Definition module_text (fd : file_dict) : string :=
  "## " ++ summary_comment fd ++ LF
  ++ "[source file](" ++ source_file fd ++ ")" ++ LF
  ++ join (map function_text (functions fd)).

(** The anchor in the spec's words, character by character: leading
    whitespace trimmed, every period removed, every space turned into a
    hyphen, everything lowercased. *)
Fixpoint remove_char (c : ascii) (s : string) : string :=
  match s with
  | EmptyString => EmptyString
  | String d s' => if Ascii.eqb d c then remove_char c s'
                   else String d (remove_char c s')
  end.

Fixpoint subst_char (c by_c : ascii) (s : string) : string :=
  match s with
  | EmptyString => EmptyString
  | String d s' => String (if Ascii.eqb d c then by_c else d)
                     (subst_char c by_c s')
  end.

(** The whitespace characters: tab, line feed, vertical tab, form feed,
    carriage return, the four separators, space, next line and no-break
    space. *)
Definition whitespace_per_spec : list ascii :=
  map ascii_of_nat [9; 10; 11; 12; 13; 28; 29; 30; 31; 32; 133; 160]%nat.

Definition is_whitespace_per_spec (c : ascii) : bool :=
  existsb (Ascii.eqb c) whitespace_per_spec.

Fixpoint trim_leading_per_spec (s : string) : string :=
  match s with
  | EmptyString => EmptyString
  | String c s' => if is_whitespace_per_spec c then trim_leading_per_spec s'
                   else s
  end.

(** The capital letters with their small letters: A to Z, and the
    accented capitals from A grave to O diaeresis and from O stroke to
    thorn, whose small letters stand 32 places further. *)
Definition capitals_per_spec : list (ascii * ascii) :=
  (combine (list_ascii_of_string "ABCDEFGHIJKLMNOPQRSTUVWXYZ")
           (list_ascii_of_string "abcdefghijklmnopqrstuvwxyz")
   ++ map (fun n => (ascii_of_nat n, ascii_of_nat (n + 32)))
        (seq 192 23 ++ seq 216 7))%list.

Definition lowercase_char_per_spec (c : ascii) : ascii :=
  match find (fun p => Ascii.eqb (fst p) c) capitals_per_spec with
  | Some p => snd p
  | None => c
  end.

Fixpoint lowercase_per_spec (s : string) : string :=
  match s with
  | EmptyString => EmptyString
  | String c s' => String (lowercase_char_per_spec c) (lowercase_per_spec s')
  end.

Definition anchor_per_spec (summary : string) : string :=
  lowercase_per_spec
    (subst_char " " "-" (remove_char "." (trim_leading_per_spec summary))).

(** The contents line of the file numbered [n]. *)
Definition contents_line (n : nat) (fd : file_dict) : string :=
  str_of_nat n ++ ". [" ++ summary_comment fd ++ "](#"
  ++ anchor_per_spec (summary_comment fd) ++ ")" ++ LF.

(** The files paired with their chapter numbers, from [n] on. *)
Fixpoint numbered {A : Type} (n : nat) (l : list A) : list (nat * A) :=
  match l with
  | [] => []
  | x :: l' => (n, x) :: numbered (S n) l'
  end.

(** [doc] has a fenced code block with [body] inside. *)
Definition has_fenced_block (body doc : string) : Prop :=
  exists pre a b post,
    doc = pre ++ "```" ++ a ++ body ++ b ++ "```" ++ post.

(** The summary in the spec's words: the content of the first line (the
    line without its line terminator) with the opener and the closer
    stripped and the surrounding whitespace trimmed. *)
Fixpoint remove_suffix (suffix s : string) : string :=
  match s with
  | EmptyString => EmptyString
  | String c s' => if String.eqb s suffix then EmptyString
                   else String c (remove_suffix suffix s')
  end.

Fixpoint rstrip (s : string) : string :=
  match s with
  | EmptyString => EmptyString
  | String c s' =>
      match rstrip s' with
      | EmptyString => if isspace c then EmptyString else String c EmptyString
      | String d t => String c (String d t)
      end
  end.

Definition summary_per_spec (first_line : string) : string :=
  let content := remove_suffix LF first_line in
  let inner := remove_suffix "'''" (drop 3 content) in
  rstrip (lstrip inner).

(** The last character of a string. *)
Fixpoint last_char (s : string) : option ascii :=
  match s with
  | EmptyString => None
  | String c s' => match s' with
                   | EmptyString => Some c
                   | String _ _ => last_char s'
                   end
  end.

(** The first character of a string. *)
Definition first_char (s : string) : option ascii :=
  match s with
  | EmptyString => None
  | String c _ => Some c
  end.

(** The lines of a file that open a function definition, in order. *)
Definition def_lines (pyfile_str : list string) : list string :=
  filter (startswith "def ") pyfile_str.

(** The file name of a path: what follows its last slash. *)
Fixpoint filename_of (path : string) : string :=
  match path with
  | EmptyString => EmptyString
  | String c rest => if contains "/" rest then filename_of rest
                     else if Ascii.eqb c "/" then rest else path
  end.

(** The line the loop of [main] prints for a path. *)
Definition notice (path : string) : event :=
  Printed (if contains "__" path then "Skipping: " ++ path
           else "Processing file: " ++ path).

(** The paths the loop of [main] hands to [process_file]. *)
Definition selected (paths : list string) : list string :=
  filter (fun path => negb (contains "__" path)) paths.

(** [i] is a subscript [l[i]] accepts. *)
Definition in_range {A : Type} (l : list A) (i : Z) : Prop :=
  - Z.of_nat (List.length l) <= i < Z.of_nat (List.length l).

(** [r] is an exception of the class named [cls]. *)
Definition reports {A : Type} (cls : string) (r : outcome A) : Prop :=
  exists e, r = Raise e /\ exn_class e = cls.

(** [r] is the failure of a subscript outside [str_array]. *)
Definition overruns {A B : Type} (str_array : list A) (r : outcome B) : Prop :=
  exists k, r = Raise (IndexError k) /\ ~ in_range str_array k.

(** Every event of [out] is a printed line. *)
Definition printed_only (out : list event) : Prop :=
  forall ev, In ev out -> exists line, ev = Printed line.

(** ** Sample inputs *)

Definition env_fixed : env :=
  {| glob := fun _ => [];
     read_file := fun _ => ReadFails;
     strftime := fun _ => "2020-01-01 00:00:00 ";
     write_file := fun _ => WriteOk |}.

Definition env_of (paths : list string) (ls : list string) : env :=
  {| glob := fun _ => paths;
     read_file := fun _ => Lines ls;
     strftime := fun _ => "2020-01-01 00:00:00 ";
     write_file := fun _ => WriteOk |}.

Definition args_lib : arguments :=
  {| sourcedir := "lib"; docfile := "out.md"; projectname := None;
     codelinks := false |}.

Definition args_underscored : arguments :=
  {| sourcedir := "my__lib"; docfile := "out.md"; projectname := None;
     codelinks := false |}.

Definition meta_one_function : meta_file :=
  {| header := "lib Technical Reference Guide";
     modules := [ {| source_file := "lib/util.py";
                     summary_comment := "Utility helpers.";
                     functions := [ {| name := "add";
                                       definition := "add(a, b)";
                                       comments := None |} ] |} ] |}.

Definition meta_two_files : meta_file :=
  {| header := "lib Technical Reference Guide";
     modules := [ {| source_file := "lib/util.py";
                     summary_comment := " Utility helpers. v1.0";
                     functions := [] |};
                  {| source_file := "lib/net.py";
                     summary_comment := "Network I/O.";
                     functions := [] |} ] |}.

Definition lines_util : list string :=
  [ "'''Utility helpers.'''" ++ LF;
    "def add(a, b):" ++ LF;
    "    '''Returns a + b.'''" ++ LF;
    "    return a + b" ++ LF;
    "def sub(a," ++ LF;
    "        b):" ++ LF;
    "    return a - b" ++ LF ].

Definition record_util : file_dict :=
  {| source_file := "lib/util.py";
     summary_comment := "Utility helpers.";
     functions :=
       [ {| name := "add"; definition := "add(a, b)";
            comments := Some "Returns a + b." |};
         {| name := "sub"; definition := "sub(a," ++ LF ++ "        b)";
            comments := None |} ] |}.

Definition record_net : file_dict :=
  {| source_file := "lib/net.py";
     summary_comment := "Network I/O.";
     functions := [ {| name := "get"; definition := "get(url)";
                       comments := Some "Fetches url." |} ] |}.

Definition meta_two_functions : meta_file :=
  {| header := "lib Technical Reference Guide";
     modules := [ record_net; record_util ] |}.

Definition lines_open_end : list string :=
  [ "'''Helpers.'''" ++ LF;
    "def add(a, b):" ++ LF;
    "    return a + b" ++ LF;
    "def stub(a," ++ LF;
    "         b):" ].


Definition lines_two_copies : list string :=
  [ "def f(a," ++ LF;
    "      b):" ++ LF;
    "    return a" ++ LF;
    "def f(a," ++ LF;
    "      c):" ++ LF;
    "    return c" ++ LF ].

Definition record_two_copies : file_dict :=
  {| source_file := "lib/two.py";
     summary_comment := "lib/two.py";
     functions :=
       [ {| name := "f"; definition := "f(a," ++ LF ++ "      b)";
            comments := None |};
         {| name := "f"; definition := "f(a," ++ LF ++ "      b)";
            comments := None |} ] |}.

(** ** Strings *)

Section StringFacts.

Lemma append_nil_r (s : string) : s ++ "" = s.
Proof. induction s as [|c s IH]; simpl; [reflexivity | now rewrite IH]. Qed.

Lemma append_assoc (a b c : string) : (a ++ b) ++ c = a ++ b ++ c.
Proof. induction a as [|x a IH]; simpl; [reflexivity | now rewrite IH]. Qed.

Lemma length_append (a b : string) :
  String.length (a ++ b) = (String.length a + String.length b)%nat.
Proof. induction a as [|x a IH]; simpl; [reflexivity | now rewrite IH]. Qed.

Lemma startswith_iff (p s : string) :
  startswith p s = true <-> exists r, s = p ++ r.
Proof.
  revert s; induction p as [|a p IH]; intros s; simpl.
  - split; [intros _; now exists s | reflexivity].
  - destruct s as [|b s].
    + split; [discriminate | intros [r Hr]; discriminate].
    + rewrite andb_true_iff, Ascii.eqb_eq, IH. split.
      * intros [-> [r ->]]. now exists r.
      * intros [r Hr]. injection Hr as -> ->. split; [reflexivity | now exists r].
Qed.

Lemma startswith_nil (p : string) : startswith p "" = true <-> p = "".
Proof. destruct p; simpl; split; congruence. Qed.

Lemma contains_iff (sub s : string) :
  contains sub s = true <-> exists p, occurs_at sub s p.
Proof.
  unfold occurs_at. induction s as [|c s IH]; simpl.
  - rewrite startswith_nil. split.
    + intros ->. now exists "", "".
    + intros [p [r H]]. destruct p; [|discriminate].
      destruct sub; [reflexivity | discriminate].
  - rewrite orb_true_iff, IH, startswith_iff. split.
    + intros [[r H] | [p [r H]]].
      * exists "", r. exact H.
      * exists (String c p), r. simpl. now rewrite H.
    + intros [p [r H]]. destruct p as [|d p]; simpl in H.
      * left. now exists r.
      * right. injection H as _ H. now exists p, r.
Qed.

Lemma contains_false (sub s p r : string) :
  contains sub s = false -> s <> p ++ sub ++ r.
Proof.
  intros Hc ->. assert (contains sub (p ++ sub ++ r) = true) as H
    by (apply contains_iff; exists p, r; reflexivity).
  congruence.
Qed.

Lemma contains_middle (sub a b c : string) :
  contains sub b = true -> contains sub (a ++ b ++ c) = true.
Proof.
  rewrite !contains_iff. intros [p [r ->]]. exists (a ++ p), (r ++ c).
  now rewrite !append_assoc.
Qed.

Lemma split_head_occurs (sep s : string) :
  contains sep s = true -> occurs_at sep s (split_head sep s).
Proof.
  unfold occurs_at. induction s as [|c s IH]; simpl.
  - rewrite startswith_nil. intros ->. now exists "".
  - destruct (startswith sep (String c s)) eqn:Hp.
    + intros _. apply startswith_iff in Hp. exact Hp.
    + simpl. intros H. destruct (IH H) as [r Hr]. exists r.
      simpl. now rewrite <- Hr.
Qed.

Lemma split_head_least (sep s p : string) :
  occurs_at sep s p ->
  (String.length (split_head sep s) <= String.length p)%nat.
Proof.
  unfold occurs_at. revert p; induction s as [|c s IH]; intros p [r H]; simpl.
  - lia.
  - destruct (startswith sep (String c s)) eqn:Hp; simpl; [lia|].
    destruct p as [|d p]; simpl in H.
    + assert (startswith sep (String c s) = true) as Hq
        by (apply startswith_iff; now exists r).
      congruence.
    + injection H as _ H. simpl.
      apply le_n_S, IH. now exists r.
Qed.

Lemma split_head_truncates (sep s : string) :
  contains sep s = true -> truncated_at_first sep s (split_head sep s).
Proof.
  intros H. split; [now apply split_head_occurs|].
  intros p. apply split_head_least.
Qed.

Lemma split_head_prefix (sep s : string) :
  exists r, s = split_head sep s ++ r.
Proof.
  induction s as [|c s [r IH]]; simpl.
  - now exists "".
  - destruct (startswith sep (String c s)).
    + now exists (String c s).
    + exists r. simpl. now rewrite <- IH.
Qed.

Lemma split_head_clean (sep s : string) :
  sep <> "" -> contains sep (split_head sep s) = false.
Proof.
  intros Hne. destruct (contains sep (split_head sep s)) eqn:Hc; [|reflexivity].
  exfalso. apply contains_iff in Hc. destruct Hc as [p [r Hc]].
  destruct (split_head_prefix sep s) as [t Ht].
  assert (occurs_at sep s p) as Ho.
  { exists (r ++ t). rewrite Ht at 1. rewrite Hc.
    now rewrite !append_assoc. }
  apply split_head_least in Ho. rewrite Hc in Ho.
  rewrite !length_append in Ho.
  destruct sep; [congruence | simpl in Ho; lia].
Qed.

Lemma split0_ok (sep s : string) :
  sep <> "" -> split0 sep s = Ok (split_head sep s).
Proof.
  intros H. unfold split0. now apply String.eqb_neq in H as ->.
Qed.

End StringFacts.

(** ** Subscripts *)

Section Subscripts.

Context {A : Type}.
Implicit Types (l : list A) (i : Z).

Lemma getitem_in_range l i :
  in_range l i -> exists x, getitem l i = Ok x.
Proof.
  unfold in_range, getitem. intros H.
  set (len := Z.of_nat (List.length l)) in *.
  set (pos := if i <? 0 then len + i else i).
  assert (0 <= pos < len) as Hpos.
  { unfold pos. destruct (Z.ltb_spec i 0); lia. }
  destruct (Z.ltb_spec pos 0); [lia|].
  destruct (Z.leb_spec len pos); [lia|]. simpl.
  destruct (nth_error l (Z.to_nat pos)) eqn:Hn; [now eexists|].
  apply nth_error_None in Hn. lia.
Qed.

Lemma getitem_out_of_range l i :
  ~ in_range l i -> getitem l i = Raise (IndexError i).
Proof.
  unfold in_range, getitem. intros H.
  set (len := Z.of_nat (List.length l)) in *.
  set (pos := if i <? 0 then len + i else i).
  destruct (Z.ltb_spec pos 0); [reflexivity|].
  destruct (Z.leb_spec len pos); [reflexivity|]. simpl.
  exfalso. apply H. unfold pos in *. destruct (Z.ltb_spec i 0); lia.
Qed.

Lemma getitem_cases l i :
  (in_range l i /\ exists x, getitem l i = Ok x) \/
  (~ in_range l i /\ getitem l i = Raise (IndexError i)).
Proof.
  destruct (Z_lt_dec i (- Z.of_nat (List.length l))).
  - right. split; [unfold in_range; lia|].
    apply getitem_out_of_range. unfold in_range. lia.
  - destruct (Z_lt_dec i (Z.of_nat (List.length l))).
    + left. split; [unfold in_range; lia|].
      apply getitem_in_range. unfold in_range. lia.
    + right. split; [unfold in_range; lia|].
      apply getitem_out_of_range. unfold in_range. lia.
Qed.

Lemma getitem_ok_in_range l i x : getitem l i = Ok x -> in_range l i.
Proof.
  intros H. destruct (getitem_cases l i) as [[Hr _] | [_ Hr]];
    [assumption | congruence].
Qed.

Lemma getitem_nonneg l i x :
  0 <= i -> (getitem l i = Ok x <-> nth_error l (Z.to_nat i) = Some x).
Proof.
  intros Hi. unfold getitem.
  destruct (Z.ltb_spec i 0); [lia|].
  destruct (Z.ltb_spec i 0); [lia|].
  destruct (Z.leb_spec (Z.of_nat (List.length l)) i); simpl.
  - split; [discriminate|]. intros Hn.
    assert (nth_error l (Z.to_nat i) <> None) as Hn' by congruence.
    apply nth_error_Some in Hn'. lia.
  - destruct (nth_error l (Z.to_nat i)); split; congruence.
Qed.

End Subscripts.

(** ** The extractor *)

Section Extractor.

Variables (end_mark : string) (str_array : list string).

(** A marker-free run of lines ends the loop in the subscript error of
    the first position outside the list. *)
Lemma extract_loop_unterminated (fuel : nat) :
  forall current_str line_num,
    (extract_fuel str_array line_num <= fuel)%nat ->
    (forall m lm, line_num <= m -> getitem str_array m = Ok lm ->
                  contains end_mark lm = false) ->
    exists k, line_num <= k /\ ~ in_range str_array k /\
      (forall m, line_num <= m < k -> in_range str_array m) /\
      extract_loop fuel end_mark current_str str_array line_num
      = Raise (IndexError k).
Proof.
  induction fuel as [|fuel IH]; intros current_str line_num Hfuel Hfree;
    simpl; destruct (getitem_cases str_array line_num)
      as [[Hr [x Hx]] | [Hr Hx]]; rewrite Hx; simpl.
  - unfold extract_fuel, in_range in *. lia.
  - exists line_num.
    split; [lia|]. split; [assumption|]. split; [intros; lia | reflexivity].
  - rewrite (Hfree line_num x) by (assumption || lia).
    destruct (IH (current_str ++ x) (line_num + 1))
      as [k [Hk [Hout [Hin Heq]]]].
    + unfold extract_fuel in *. lia.
    + intros m lm Hm. apply Hfree. lia.
    + exists k. split; [lia|]. split; [assumption|].
      split; [|assumption].
      intros m Hm. destruct (Z.eq_dec m line_num) as [-> | Hne];
        [assumption | apply Hin; lia].
  - exists line_num.
    split; [lia|]. split; [assumption|]. split; [intros; lia | reflexivity].
Qed.

(** A marker at distance [n] is found at the first line that has it. *)
Lemma extract_loop_finds (n : nat) :
  forall fuel current_str line_num,
    (n <= fuel)%nat ->
    (forall m, line_num <= m <= line_num + Z.of_nat n ->
               in_range str_array m) ->
    (exists lj, getitem str_array (line_num + Z.of_nat n) = Ok lj /\
                contains end_mark lj = true) ->
    exists k lk,
      (k <= n)%nat /\
      getitem str_array (line_num + Z.of_nat k) = Ok lk /\
      contains end_mark lk = true /\
      (forall m lm, line_num <= m < line_num + Z.of_nat k ->
                    getitem str_array m = Ok lm ->
                    contains end_mark lm = false) /\
      extract_loop fuel end_mark current_str str_array line_num
      = Ok (current_str ++ join (lines_from str_array line_num (S k)),
            line_num + Z.of_nat k).
Proof.
  induction n as [|n IH]; intros fuel current_str line_num Hfuel Hvalid Hj.
  - destruct Hj as [lj [Hj Hc]]. rewrite Z.add_0_r in Hj.
    exists O, lj. rewrite Z.add_0_r.
    repeat split; [lia | assumption | assumption | intros; lia |].
    destruct fuel; simpl; rewrite Hj; simpl; rewrite Hc;
      now rewrite append_nil_r.
  - destruct (getitem_in_range str_array line_num) as [x Hx];
      [apply Hvalid; lia|].
    destruct (contains end_mark x) eqn:Hc.
    + exists O, x. rewrite Z.add_0_r.
      repeat split; [lia | assumption | assumption | intros; lia |].
      destruct fuel; simpl; rewrite Hx; simpl; rewrite Hc;
        now rewrite append_nil_r.
    + destruct fuel as [|fuel]; [lia|].
      destruct (IH fuel (current_str ++ x) (line_num + 1))
        as [k [lk [Hk [Hlk [Hck [Hfirst Heq]]]]]].
      * lia.
      * intros m Hm. apply Hvalid. lia.
      * destruct Hj as [lj [Hj Hcj]]. exists lj. split; [|assumption].
        rewrite <- Hj. f_equal. lia.
      * exists (S k), lk.
        replace (line_num + Z.of_nat (S k))
          with (line_num + 1 + Z.of_nat k) by lia.
        repeat split; [lia | assumption | assumption | |].
        -- intros m lm Hm Hlm.
           destruct (Z.eq_dec m line_num) as [-> | Hne];
             [congruence | apply (Hfirst m); [lia | assumption]].
        -- simpl extract_loop. rewrite Hx. simpl bind. rewrite Hc, Heq.
           f_equal. f_equal.
           change (lines_from str_array line_num (S (S k)))
             with (match getitem str_array line_num with
                   | Ok l => l :: lines_from str_array (line_num + 1) (S k)
                   | _ => []
                   end).
           rewrite Hx. simpl join. now rewrite append_assoc.
Qed.

Lemma join_lines_from_contains (k : nat) :
  forall line_num lk,
    (forall m, line_num <= m <= line_num + Z.of_nat k ->
               in_range str_array m) ->
    getitem str_array (line_num + Z.of_nat k) = Ok lk ->
    contains end_mark lk = true ->
    contains end_mark (join (lines_from str_array line_num (S k))) = true.
Proof.
  induction k as [|k IH]; intros line_num lk Hvalid Hlk Hc.
  - rewrite Z.add_0_r in Hlk. simpl. rewrite Hlk. simpl.
    now rewrite append_nil_r.
  - destruct (getitem_in_range str_array line_num) as [x Hx];
      [apply Hvalid; lia|].
    change (lines_from str_array line_num (S (S k)))
      with (match getitem str_array line_num with
            | Ok l => l :: lines_from str_array (line_num + 1) (S k)
            | _ => []
            end).
    rewrite Hx. simpl join.
    rewrite <- (append_nil_r (join _)).
    apply contains_middle, (IH (line_num + 1) lk); [| |assumption].
    + intros m Hm. apply Hvalid. lia.
    + rewrite <- Hlk. f_equal. lia.
Qed.

(** The loop never exhausts the budget [extract_code] gives it. *)
Lemma extract_loop_total (fuel : nat) :
  forall current_str line_num,
    (extract_fuel str_array line_num <= fuel)%nat ->
    extract_loop fuel end_mark current_str str_array line_num <> OutOfFuel.
Proof.
  induction fuel as [|fuel IH]; intros current_str line_num Hfuel;
    simpl; destruct (getitem_cases str_array line_num)
      as [[Hr [x Hx]] | [Hr Hx]]; rewrite Hx; simpl; try discriminate.
  - unfold extract_fuel, in_range in *. lia.
  - destruct (contains end_mark x); [discriminate|].
    apply IH. unfold extract_fuel in *. lia.
Qed.

Lemma extract_code_total (current_str : string) (line_num : Z) :
  extract_code end_mark current_str str_array line_num <> OutOfFuel.
Proof.
  unfold extract_code.
  destruct (contains end_mark current_str).
  - simpl. unfold split0. destruct (String.eqb end_mark ""); discriminate.
  - pose proof (extract_loop_total
                  (extract_fuel str_array (line_num + 1)) current_str
                  (line_num + 1) (Nat.le_refl _)) as H.
    destruct (extract_loop _ _ _ _ _); simpl; try congruence.
    unfold split0. destruct (String.eqb end_mark ""); discriminate.
Qed.

(** With the empty marker Python finds it in any text and then refuses
    to split on it. *)
Lemma extract_code_empty_marker (current_str : string) (line_num : Z) :
  extract_code "" current_str str_array line_num
  = Raise (ValueError "empty separator").
Proof.
  unfold extract_code.
  assert (contains "" current_str = true) as ->
    by (destruct current_str; reflexivity).
  reflexivity.
Qed.

End Extractor.

(** C1.  When [current_str] is [str_array[line_num]] and the non-empty
    [end_mark] occurs in some line at or after [line_num], [extract_code]
    returns a text free of [end_mark], which is the concatenation of the
    lines from [line_num] through the returned index cut at the first
    occurrence of [end_mark], and the returned index is that of the first
    line at or after [line_num] that contains [end_mark]. *)
Theorem extract_code_first_marker :
  forall (end_mark current_str : string) (str_array : list string)
         (line_num j : Z) (lj : string),
    end_mark <> "" ->
    getitem str_array line_num = Ok current_str ->
    line_num <= j ->
    getitem str_array j = Ok lj ->
    contains end_mark lj = true ->
    exists text k lk,
      extract_code end_mark current_str str_array line_num = Ok (text, k) /\
      contains end_mark text = false /\
      truncated_at_first end_mark
        (join (lines_from str_array line_num (Z.to_nat (k - line_num + 1))))
        text /\
      line_num <= k <= j /\
      getitem str_array k = Ok lk /\
      contains end_mark lk = true /\
      (forall m lm, line_num <= m < k -> getitem str_array m = Ok lm ->
                    contains end_mark lm = false).
Proof.
  intros end_mark current_str str_array line_num j lj Hne Hcur Hle Hj Hcj.
  pose proof (getitem_ok_in_range _ _ _ Hcur) as Hr0.
  pose proof (getitem_ok_in_range _ _ _ Hj) as Hrj.
  unfold extract_code.
  destruct (contains end_mark current_str) eqn:Hc.
  - exists (split_head end_mark current_str), line_num, current_str.
    simpl. rewrite (split0_ok _ _ Hne). simpl.
    replace (line_num - line_num + 1) with 1 by lia.
    change (Z.to_nat 1) with 1%nat. simpl lines_from. rewrite Hcur.
    simpl join. rewrite append_nil_r.
    split; [reflexivity|]. split; [now apply split_head_clean|].
    split; [now apply split_head_truncates|].
    split; [lia|]. split; [reflexivity|]. split; [assumption|].
    intros m lm Hm. lia.
  - assert (line_num < j) as Hlt.
    { destruct (Z.eq_dec line_num j) as [<- | Hne']; [congruence | lia]. }
    destruct (extract_loop_finds end_mark str_array
                (Z.to_nat (j - line_num - 1))
                (extract_fuel str_array (line_num + 1)) current_str
                (line_num + 1))
      as [k [lk [Hk [Hlk [Hck [Hfirst Heq]]]]]].
    + unfold extract_fuel, in_range in *. lia.
    + intros m Hm. unfold in_range in *. lia.
    + exists lj. split; [|assumption]. rewrite <- Hj. f_equal. lia.
    + rewrite Heq. simpl bind. rewrite (split0_ok _ _ Hne). simpl bind.
      exists (split_head end_mark
                (current_str
                 ++ join (lines_from str_array (line_num + 1) (S k)))),
        (line_num + 1 + Z.of_nat k), lk.
      replace (Z.to_nat (line_num + 1 + Z.of_nat k - line_num + 1))
        with (S (S k)) by lia.
      change (lines_from str_array line_num (S (S k)))
        with (match getitem str_array line_num with
              | Ok l => l :: lines_from str_array (line_num + 1) (S k)
              | _ => []
              end).
      rewrite Hcur. simpl join.
      assert (contains end_mark
                (current_str
                 ++ join (lines_from str_array (line_num + 1) (S k))) = true)
        as Hjoin.
      { rewrite <- (append_nil_r (join _)). apply contains_middle.
        apply (join_lines_from_contains end_mark str_array k (line_num + 1) lk);
          [|assumption|assumption].
        intros m Hm. unfold in_range in *. lia. }
      split; [reflexivity|]. split; [now apply split_head_clean|].
      split; [now apply split_head_truncates|].
      split; [lia|]. split; [assumption|]. split; [assumption|].
      intros m lm Hm Hlm.
        destruct (Z.eq_dec m line_num) as [-> | Hne'];
          [congruence | apply (Hfirst m); [lia | assumption]].
Qed.

Lemma extract_code_first_marker_witness :
  exists text k lk,
    extract_code ":" "def f(a," ["def f(a,"; "      b):"; "    pass"] 0
    = Ok (text, k) /\
    contains ":" text = false /\
    truncated_at_first ":"
      (join (lines_from ["def f(a,"; "      b):"; "    pass"] 0
               (Z.to_nat (k - 0 + 1))))
      text /\
    0 <= k <= 1 /\
    getitem ["def f(a,"; "      b):"; "    pass"] k = Ok lk /\
    contains ":" lk = true /\
    (forall m lm, 0 <= m < k ->
                  getitem ["def f(a,"; "      b):"; "    pass"] m = Ok lm ->
                  contains ":" lm = false).
Proof.
  apply (extract_code_first_marker ":" "def f(a,"
           ["def f(a,"; "      b):"; "    pass"] 0 1 "      b):").
  - discriminate.
  - reflexivity.
  - lia.
  - reflexivity.
  - reflexivity.
Defined.

(** C2, as the code has it.  When [end_mark] occurs neither in
    [current_str] nor in any line after [line_num], [extract_code] returns
    nothing: it subscripts every position after [line_num] in turn and
    fails with the [IndexError] of the first position outside the list,
    which is [len(str_array)] whenever [line_num + 1] is a position of the
    list or its end. *)
Theorem extract_code_unterminated :
  forall (end_mark current_str : string) (str_array : list string)
         (line_num : Z),
    contains end_mark current_str = false ->
    (forall m lm, line_num < m -> getitem str_array m = Ok lm ->
                  contains end_mark lm = false) ->
    exists k,
      extract_code end_mark current_str str_array line_num
      = Raise (IndexError k) /\
      line_num < k /\
      ~ in_range str_array k /\
      (forall m, line_num < m < k -> in_range str_array m) /\
      (- Z.of_nat (List.length str_array) <= line_num + 1
         <= Z.of_nat (List.length str_array) ->
       k = Z.of_nat (List.length str_array)).
Proof.
  intros end_mark current_str str_array line_num Hc Hfree.
  destruct (extract_loop_unterminated end_mark str_array
              (extract_fuel str_array (line_num + 1)) current_str
              (line_num + 1) (Nat.le_refl _))
    as [k [Hk [Hout [Hin Heq]]]].
  - intros m lm Hm. apply Hfree. lia.
  - exists k. unfold extract_code. rewrite Hc, Heq. simpl.
    split; [reflexivity|]. split; [lia|]. split; [assumption|].
    split; [intros m Hm; apply Hin; lia|].
    intros Hpos.
    destruct (Z_lt_dec (Z.of_nat (List.length str_array)) k) as [Hgt|Hle].
    + specialize (Hin (Z.of_nat (List.length str_array))).
      unfold in_range in Hin. lia.
    + unfold in_range in Hout. lia.
Qed.

Lemma extract_code_unterminated_witness :
  exists k,
    extract_code ":" "f(a," ["def f(a,"; "      b)"] 0
    = Raise (IndexError k) /\
    0 < k /\
    ~ in_range ["def f(a,"; "      b)"] k /\
    (forall m, 0 < m < k -> in_range ["def f(a,"; "      b)"] m) /\
    (- Z.of_nat (List.length ["def f(a,"; "      b)"]) <= 0 + 1
       <= Z.of_nat (List.length ["def f(a,"; "      b)"]) ->
     k = Z.of_nat (List.length ["def f(a,"; "      b)"])).
Proof.
  apply (extract_code_unterminated ":" "f(a," ["def f(a,"; "      b)"] 0).
  - reflexivity.
  - intros m lm Hm Hlm.
    pose proof (getitem_ok_in_range _ _ _ Hlm) as Hr.
    unfold in_range in Hr. simpl in Hr.
    assert (m = 1) as -> by lia.
    vm_compute in Hlm. injection Hlm as <-. reflexivity.
Defined.

(** C2 as stated fails: on an unterminated signature the call is no
    [MalformedSourceError] but the [IndexError] of the subscript
    [str_array[2]], one past the last line. *)
Lemma extract_code_unterminated_counterexample :
  contains ":" "f(a," = false /\
  (forall m lm, 0 < m -> getitem ["def f(a,"; "      b)"] m = Ok lm ->
                contains ":" lm = false) /\
  extract_code ":" "f(a," ["def f(a,"; "      b)"] 0
  = Raise (IndexError 2) /\
  ~ reports "MalformedSourceError"
      (extract_code ":" "f(a," ["def f(a,"; "      b)"] 0) /\
  overruns ["def f(a,"; "      b)"]
    (extract_code ":" "f(a," ["def f(a,"; "      b)"] 0).
Proof.
  split; [reflexivity|]. split; [|split; [reflexivity|split]].
  - intros m lm Hm Hlm.
    pose proof (getitem_ok_in_range _ _ _ Hlm) as Hr.
    unfold in_range in Hr. simpl in Hr.
    assert (m = 1) as -> by lia.
    vm_compute in Hlm. injection Hlm as <-. reflexivity.
  - intros [e [He Hcls]]. vm_compute in He.
    injection He as <-. discriminate.
  - exists 2. split; [reflexivity|]. unfold in_range. simpl. lia.
Qed.

(** ** The renderer *)

Section Renderer.

Lemma fold_left_append {A : Type} (step : string -> A -> string)
    (text : A -> string) :
  (forall doc x, step doc x = doc ++ text x) ->
  forall l doc, fold_left step l doc = doc ++ join (map text l).
Proof.
  intros Hstep l. induction l as [|x l IH]; intros doc; simpl.
  - now rewrite append_nil_r.
  - now rewrite IH, Hstep, append_assoc.
Qed.

Lemma function_step_text (doc : string) (fi : function_info) :
  function_step doc fi = doc ++ function_text fi.
Proof.
  unfold function_step, function_text.
  destruct (comments fi); now rewrite ?append_assoc.
Qed.

Lemma module_step_text (doc : string) (fd : file_dict) :
  module_step doc fd = doc ++ module_text fd.
Proof.
  unfold module_step, module_text.
  rewrite (fold_left_append _ _ function_step_text).
  now rewrite !append_assoc.
Qed.

Lemma replace_remove_char (c : ascii) (s : string) :
  replace (String c "") "" s = remove_char c s.
Proof.
  unfold replace. induction s as [|d s IH]; simpl; [reflexivity|].
  rewrite Ascii.eqb_sym, andb_true_r.
  destruct (Ascii.eqb d c); simpl; now rewrite IH.
Qed.

Lemma replace_subst_char (c by_c : ascii) (s : string) :
  replace (String c "") (String by_c "") s = subst_char c by_c s.
Proof.
  unfold replace. induction s as [|d s IH]; simpl; [reflexivity|].
  rewrite Ascii.eqb_sym, andb_true_r.
  destruct (Ascii.eqb d c); simpl; now rewrite IH.
Qed.

Lemma isspace_per_spec (c : ascii) : isspace c = is_whitespace_per_spec c.
Proof.
  destruct c as [[] [] [] [] [] [] [] []]; vm_compute; reflexivity.
Qed.

Lemma lstrip_per_spec (s : string) : lstrip s = trim_leading_per_spec s.
Proof.
  induction s as [|c s IH]; simpl; [reflexivity|].
  now rewrite isspace_per_spec, IH.
Qed.

Lemma lower_char_per_spec (c : ascii) :
  lower_char c = lowercase_char_per_spec c.
Proof.
  destruct c as [[] [] [] [] [] [] [] []]; vm_compute; reflexivity.
Qed.

Lemma lower_per_spec (s : string) : lower s = lowercase_per_spec s.
Proof.
  induction s as [|c s IH]; simpl; [reflexivity|].
  now rewrite lower_char_per_spec, IH.
Qed.

(** Trimming cuts a run of whitespace off the front and stops at the
    first character that is none. *)
Lemma trim_leading_per_spec_cut (s : string) :
  exists blanks,
    s = blanks ++ trim_leading_per_spec s /\
    (forall c, mem c blanks = true -> is_whitespace_per_spec c = true) /\
    match first_char (trim_leading_per_spec s) with
    | Some c => is_whitespace_per_spec c = false
    | None => True
    end.
Proof.
  induction s as [|d s [blanks [Hs [Hall Hfirst]]]]; simpl.
  - exists "". repeat split. discriminate.
  - destruct (is_whitespace_per_spec d) eqn:Hd.
    + exists (String d blanks). split; [simpl; now rewrite <- Hs|].
      split; [|assumption].
      intros c. simpl. destruct (Ascii.eqb_spec c d) as [-> | _];
        [now intros _ | apply Hall].
    + exists "". split; [reflexivity|]. split; [discriminate | exact Hd].
Qed.

Lemma contents_step_line (n : nat) (doc : string) (fd : file_dict) :
  contents_step (n, doc) fd = (S n, doc ++ contents_line n fd).
Proof.
  unfold contents_step, contents_line, anchor_per_spec.
  now rewrite replace_remove_char, replace_subst_char, lstrip_per_spec,
    lower_per_spec.
Qed.

Lemma contents_loop_lines (l : list file_dict) :
  forall n doc,
    snd (fold_left contents_step l (n, doc))
    = doc ++ join (map (fun p => contents_line (fst p) (snd p))
                     (numbered n l)).
Proof.
  induction l as [|fd l IH]; intros n doc.
  - simpl. now rewrite append_nil_r.
  - change (fold_left contents_step (fd :: l) (n, doc))
      with (fold_left contents_step l (contents_step (n, doc) fd)).
    rewrite contents_step_line, IH. simpl. now rewrite append_assoc.
Qed.

Lemma render_text (e : env) (mf : meta_file) :
  render e mf
  = title_text e mf
    ++ (if (1 <? List.length (modules mf))%nat
        then "## Contents" ++ LF
             ++ join (map (fun p => contents_line (fst p) (snd p))
                        (numbered 1 (modules mf)))
        else "")
    ++ join (map module_text (modules mf)).
Proof.
  unfold render, title_text.
  rewrite (fold_left_append _ _ module_step_text).
  destruct (1 <? List.length (modules mf))%nat.
  - rewrite contents_loop_lines. now rewrite !append_assoc.
  - now rewrite !append_assoc.
Qed.

Lemma join_app (l1 l2 : list string) :
  join (l1 ++ l2) = join l1 ++ join l2.
Proof.
  induction l1 as [|x l1 IH]; simpl; [reflexivity|].
  now rewrite IH, append_assoc.
Qed.

Lemma join_in {A : Type} (text : A -> string) (l : list A) (x : A) :
  In x l -> exists pre post, join (map text l) = pre ++ text x ++ post.
Proof.
  intros H. apply in_split in H. destruct H as [l1 [l2 ->]].
  exists (join (map text l1)), (join (map text l2)).
  now rewrite map_app, join_app.
Qed.

End Renderer.

Lemma numbered_nth {A : Type} (l : list A) :
  forall n i x, nth_error l i = Some x -> In ((n + i)%nat, x) (numbered n l).
Proof.
  induction l as [|y l IH]; intros n i x H; destruct i as [|i];
    simpl in *; try discriminate.
  - injection H as ->. left. f_equal. lia.
  - right. replace (n + S i)%nat with (S n + i)%nat by lia. now apply IH.
Qed.

(** C3, as the code has it.  For every file record and every function
    record in it, wherever they stand, the document has the section of
    that file after the sections of the files before it, and in it,
    after the heading and the source line of the file and the
    subsections of the functions before it, the heading with the
    function name, then the signature text as plain text followed by a
    blank line (no fence), then, when a docstring is present, one
    fenced block with the docstring; the subsections of the later
    functions and the sections of the later files follow. *)
Theorem render_function_subsection :
  forall (e : env) (mf : meta_file) (fd : file_dict) (fi : function_info)
         (files_before files_after : list file_dict)
         (functions_before functions_after : list function_info),
    modules mf = (files_before ++ fd :: files_after)%list ->
    functions fd = (functions_before ++ fi :: functions_after)%list ->
    render e mf
    = title_text e mf
      ++ (if (1 <? List.length (modules mf))%nat
          then "## Contents" ++ LF
               ++ join (map (fun p => contents_line (fst p) (snd p))
                          (numbered 1 (modules mf)))
          else "")
      ++ join (map module_text files_before)
      ++ ("## " ++ summary_comment fd ++ LF
          ++ "[source file](" ++ source_file fd ++ ")" ++ LF)
      ++ join (map function_text functions_before)
      ++ ("### " ++ name fi ++ LF ++ definition fi ++ LF ++ LF
          ++ match comments fi with
             | Some c => "```" ++ LF ++ c ++ LF ++ "```" ++ LF ++ LF
             | None => ""
             end)
      ++ join (map function_text functions_after)
      ++ join (map module_text files_after).
Proof.
  intros e mf fd fi files_before files_after functions_before
    functions_after Hfiles Hfunctions.
  assert (module_text fd
          = ("## " ++ summary_comment fd ++ LF
             ++ "[source file](" ++ source_file fd ++ ")" ++ LF)
            ++ join (map function_text functions_before)
            ++ function_text fi
            ++ join (map function_text functions_after)) as Hsection.
  { unfold module_text.
    rewrite Hfunctions, map_app, join_app.
    change (join (map function_text (fi :: functions_after)))
      with (function_text fi ++ join (map function_text functions_after)).
    now rewrite !append_assoc. }
  rewrite render_text. do 2 f_equal.
  rewrite Hfiles, map_app, join_app. f_equal.
  change (join (map module_text (fd :: files_after)))
    with (module_text fd ++ join (map module_text files_after)).
  rewrite Hsection. unfold function_text at 2.
  now rewrite !append_assoc.
Qed.

Lemma render_function_subsection_witness :
  render env_fixed meta_two_functions
  = title_text env_fixed meta_two_functions
    ++ (if (1 <? List.length (modules meta_two_functions))%nat
        then "## Contents" ++ LF
             ++ join (map (fun p => contents_line (fst p) (snd p))
                        (numbered 1 (modules meta_two_functions)))
        else "")
    ++ join (map module_text [record_net])
    ++ ("## " ++ summary_comment record_util ++ LF
        ++ "[source file](" ++ source_file record_util ++ ")" ++ LF)
    ++ join (map function_text
               [ {| name := "add"; definition := "add(a, b)";
                    comments := Some "Returns a + b." |} ])
    ++ ("### " ++ "sub" ++ LF ++ ("sub(a," ++ LF ++ "        b)") ++ LF ++ LF
        ++ "")
    ++ join (map function_text [])
    ++ join (map module_text []).
Proof.
  apply (render_function_subsection env_fixed meta_two_functions
           record_util
           {| name := "sub"; definition := "sub(a," ++ LF ++ "        b)";
              comments := None |}
           [record_net] []
           [ {| name := "add"; definition := "add(a, b)";
                comments := Some "Returns a + b." |} ] []).
  - reflexivity.
  - reflexivity.
Defined.

(** C3 as stated fails: the document rendered for one function without
    docstring has no fence at all, so its signature is in no fenced
    block. *)
Lemma render_function_subsection_counterexample :
  exists fd fi,
    In fd (modules meta_one_function) /\ In fi (functions fd) /\
    ~ has_fenced_block (definition fi) (render env_fixed meta_one_function).
Proof.
  eexists. eexists. split; [left; reflexivity|]. split; [left; reflexivity|].
  intros [pre [a [b [post H]]]].
  apply (contains_false "```" _ pre (a ++ "add(a, b)" ++ b ++ "```" ++ post))
    in H; [exact H | vm_compute; reflexivity].
Qed.

(** C6.  The document is the title lines, a contents part and the file
    sections; the contents part opens with the contents heading exactly
    when more than one file record is present and is empty exactly when
    there are none or one. *)
Theorem render_contents_iff :
  forall (e : env) (mf : meta_file),
    exists toc,
      render e mf
      = title_text e mf ++ toc ++ join (map module_text (modules mf)) /\
      (startswith ("## Contents" ++ LF) toc = true
       <-> (1 < List.length (modules mf))%nat) /\
      (toc = "" <-> (List.length (modules mf) <= 1)%nat).
Proof.
  intros e mf. rewrite render_text.
  destruct (Nat.ltb_spec 1 (List.length (modules mf))) as [Hlt | Hle].
  - eexists. split; [reflexivity|]. split; split; intros H;
      try assumption; try reflexivity; try lia.
    discriminate.
  - exists "". split; [reflexivity|]. split; split; intros H;
      try assumption; try reflexivity; try lia.
    discriminate.
Qed.

Lemma numbered_app {A : Type} (l1 l2 : list A) :
  forall n,
    numbered n (l1 ++ l2)
    = (numbered n l1 ++ numbered (n + List.length l1) l2)%list.
Proof.
  induction l1 as [|x l1 IH]; intros n; simpl.
  - now rewrite Nat.add_0_r.
  - rewrite IH. do 3 f_equal. lia.
Qed.

(** C7.  When the contents are emitted, they are one line per file
    record, numbered from 1 in order.  The line of a record stands
    after the lines of the records before it, and its anchor is made
    from the summary in four steps: the whitespace it begins with is
    cut off, every period is removed, every space is turned into a
    hyphen, and every capital letter into its small letter. *)
Theorem render_contents_anchor :
  forall (e : env) (mf : meta_file),
    (1 < List.length (modules mf))%nat ->
    render e mf
    = title_text e mf ++ "## Contents" ++ LF
      ++ join (map (fun p => contents_line (fst p) (snd p))
                 (numbered 1 (modules mf)))
      ++ join (map module_text (modules mf)) /\
    forall files_before fd files_after,
      modules mf = (files_before ++ fd :: files_after)%list ->
      exists blanks rest,
        summary_comment fd = blanks ++ rest /\
        (forall c, mem c blanks = true -> is_whitespace_per_spec c = true) /\
        match first_char rest with
        | Some c => is_whitespace_per_spec c = false
        | None => True
        end /\
        render e mf
        = title_text e mf ++ "## Contents" ++ LF
          ++ join (map (fun p => contents_line (fst p) (snd p))
                     (numbered 1 files_before))
          ++ (str_of_nat (S (List.length files_before))
              ++ ". [" ++ summary_comment fd ++ "](#"
              ++ lowercase_per_spec
                   (subst_char " " "-" (remove_char "." rest))
              ++ ")" ++ LF)
          ++ join (map (fun p => contents_line (fst p) (snd p))
                     (numbered (S (S (List.length files_before)))
                        files_after))
          ++ join (map module_text (modules mf)).
Proof.
  intros e mf Hlen. rewrite render_text.
  apply Nat.ltb_lt in Hlen. rewrite Hlen. split.
  - now rewrite !append_assoc.
  - intros files_before fd files_after Hfiles.
    destruct (trim_leading_per_spec_cut (summary_comment fd))
      as [blanks [Hcut [Hall Hfirst]]].
    exists blanks, (trim_leading_per_spec (summary_comment fd)).
    split; [assumption|]. split; [assumption|]. split; [assumption|].
    assert (join (map (fun p => contents_line (fst p) (snd p))
                    (numbered 1 (modules mf)))
            = join (map (fun p => contents_line (fst p) (snd p))
                      (numbered 1 files_before))
              ++ contents_line (S (List.length files_before)) fd
              ++ join (map (fun p => contents_line (fst p) (snd p))
                         (numbered (S (S (List.length files_before)))
                            files_after))) as ->.
    { rewrite Hfiles, numbered_app, map_app, join_app.
      cbn [numbered map join fst snd Nat.add]. reflexivity. }
    unfold contents_line at 2, anchor_per_spec.
    now rewrite !append_assoc.
Qed.

Lemma render_contents_anchor_witness :
  render env_fixed meta_two_files
  = title_text env_fixed meta_two_files ++ "## Contents" ++ LF
    ++ join (map (fun p => contents_line (fst p) (snd p))
               (numbered 1 (modules meta_two_files)))
    ++ join (map module_text (modules meta_two_files)) /\
  forall files_before fd files_after,
    modules meta_two_files = (files_before ++ fd :: files_after)%list ->
    exists blanks rest,
      summary_comment fd = blanks ++ rest /\
      (forall c, mem c blanks = true -> is_whitespace_per_spec c = true) /\
      match first_char rest with
      | Some c => is_whitespace_per_spec c = false
      | None => True
      end /\
      render env_fixed meta_two_files
      = title_text env_fixed meta_two_files ++ "## Contents" ++ LF
        ++ join (map (fun p => contents_line (fst p) (snd p))
                   (numbered 1 files_before))
        ++ (str_of_nat (S (List.length files_before))
            ++ ". [" ++ summary_comment fd ++ "](#"
            ++ lowercase_per_spec
                 (subst_char " " "-" (remove_char "." rest))
            ++ ")" ++ LF)
        ++ join (map (fun p => contents_line (fst p) (snd p))
                   (numbered (S (S (List.length files_before)))
                      files_after))
        ++ join (map module_text (modules meta_two_files)).
Proof.
  apply (render_contents_anchor env_fixed meta_two_files).
  simpl. lia.
Defined.

(** C8.  The [code_links] argument changes nothing: [process_output]
    and [main] do the same with the flag set or not, and the source-link
    line of every file record is in the document either way. *)
Theorem code_links_no_effect :
  forall (e : env) (mf : meta_file) (outfile_name : string)
         (args : arguments) (b1 b2 : bool),
    process_output e mf outfile_name b1
    = process_output e mf outfile_name b2 /\
    main e {| sourcedir := sourcedir args; docfile := docfile args;
              projectname := projectname args; codelinks := b1 |}
    = main e {| sourcedir := sourcedir args; docfile := docfile args;
                projectname := projectname args; codelinks := b2 |} /\
    forall fd,
      In fd (modules mf) ->
      exists pre post,
        render e mf
        = pre ++ "## " ++ summary_comment fd ++ LF
          ++ "[source file](" ++ source_file fd ++ ")" ++ LF ++ post.
Proof.
  intros e mf outfile_name args b1 b2.
  split; [reflexivity|]. split; [reflexivity|].
  intros fd Hfd. rewrite render_text.
  destruct (join_in module_text _ _ Hfd) as [pre [post ->]].
  set (toc := if (1 <? _)%nat then _ else _).
  exists (title_text e mf ++ toc ++ pre).
  exists (join (map function_text (functions fd)) ++ post).
  unfold module_text. now rewrite !append_assoc.
Qed.

(** ** The file scanner *)

Section Scanner.

Lemma all_but_last_snoc (s : string) (c : ascii) :
  all_but_last (s ++ String c "") = s.
Proof.
  induction s as [|d s IH]; simpl; [reflexivity|].
  rewrite IH. destruct s; reflexivity.
Qed.

Lemma lstrip_chars_fixed (chars s : string) :
  match first_char s with
  | Some c => mem c chars = false
  | None => True
  end ->
  lstrip_chars chars s = s.
Proof. destruct s as [|c s]; simpl; [reflexivity | now intros ->]. Qed.

Lemma rstrip_chars_fixed (chars s : string) :
  match last_char s with
  | Some c => mem c chars = false
  | None => True
  end ->
  rstrip_chars chars s = s.
Proof.
  induction s as [|c s IH]; simpl; [reflexivity|].
  destruct s as [|d s].
  - simpl. now intros ->.
  - intros H. rewrite (IH H). reflexivity.
Qed.

Lemma rstrip_chars_all (chars q : string) :
  (forall c, mem c q = true -> mem c chars = true) ->
  rstrip_chars chars q = "".
Proof.
  induction q as [|c q IH]; intros H; simpl; [reflexivity|].
  rewrite IH.
  - rewrite (H c); [reflexivity|]. simpl. now rewrite Ascii.eqb_refl.
  - intros d Hd. apply H. simpl. rewrite Hd. apply orb_true_r.
Qed.

Lemma rstrip_chars_app (chars s q : string) :
  (forall c, mem c q = true -> mem c chars = true) ->
  rstrip_chars chars (s ++ q) = rstrip_chars chars s.
Proof.
  intros H. induction s as [|c s IH]; simpl.
  - now apply rstrip_chars_all.
  - now rewrite IH.
Qed.

(** A quoted one-line summary comes out as the text between the
    quotes, untouched. *)
Lemma strip_quoted (m : string) (c : ascii) :
  match first_char m with Some a => mem a "'" = false | None => True end ->
  match last_char m with Some a => mem a "'" = false | None => True end ->
  strip_chars "'" (all_but_last ("'''" ++ m ++ "'''" ++ String c "")) = m.
Proof.
  intros Hfirst Hlast.
  replace ("'''" ++ m ++ "'''" ++ String c "")
    with (("'''" ++ m ++ "'''") ++ String c "")
    by now rewrite !append_assoc.
  rewrite all_but_last_snoc. unfold strip_chars.
  change (lstrip_chars "'" ("'''" ++ m ++ "'''"))
    with (lstrip_chars "'" (m ++ "'''")).
  destruct m as [|a m].
  - reflexivity.
  - simpl in Hfirst. simpl lstrip_chars. rewrite Hfirst.
    change (String a (m ++ "'''")) with (String a m ++ "'''").
    rewrite rstrip_chars_app.
    + now apply rstrip_chars_fixed.
    + intros d. simpl. now destruct (Ascii.eqb d "'").
Qed.

Variable pyfile_str : list string.

Lemma scan_line_other (fns : list function_info) (line : string) :
  startswith "def " line = false -> scan_line pyfile_str fns line = Ok fns.
Proof. intros H. unfold scan_line. now rewrite H. Qed.

(** The record a definition line gives depends on the line and the
    file only, and is put at the end of the list. *)
Lemma scan_line_def (fns res : list function_info) (line : string) :
  startswith "def " line = true ->
  scan_line pyfile_str fns line = Ok res ->
  exists fi,
    res = (fns ++ [fi])%list /\
    name fi = split_head "(" (drop 4 line) /\
    scan_line pyfile_str [] line = Ok [fi].
Proof.
  intros Hdef. unfold scan_line. rewrite Hdef.
  rewrite !(split0_ok "(") by discriminate.
  destruct (index line pyfile_str) as [line_num| |]; cbn [bind];
    try discriminate.
  destruct (extract_code ":" _ _ _) as [extract| |]; cbn [bind];
    try discriminate.
  destruct (getitem pyfile_str _) as [doc_line| |]; cbn [bind];
    try discriminate.
  destruct (startswith "    '''" doc_line).
  - destruct (extract_code "'''" _ _ _) as [extract'| |]; cbn [bind];
      try discriminate.
    intros H. injection H as <-. eexists. repeat split.
  - intros H. injection H as <-. eexists. repeat split.
Qed.

Lemma scan_loop_order (l : list string) :
  forall fns res,
    for_each (scan_line pyfile_str) l fns = Ok res ->
    exists added,
      res = (fns ++ added)%list /\
      map name added
      = map (fun line => split_head "(" (drop 4 line)) (def_lines l) /\
      Forall2 (fun line fi => scan_line pyfile_str [] line = Ok [fi])
        (def_lines l) added.
Proof.
  induction l as [|line l IH]; intros fns res H; simpl in H.
  - injection H as <-. exists []. rewrite app_nil_r.
    repeat split. constructor.
  - unfold def_lines. cbn [filter]. fold (def_lines l).
    destruct (startswith "def " line) eqn:Hdef.
    + destruct (scan_line pyfile_str fns line) as [fns'| |] eqn:Hs;
        simpl in H; try discriminate.
      destruct (scan_line_def _ _ _ Hdef Hs) as [fi [-> [Hname Hfi]]].
      destruct (IH _ _ H) as [added [-> [Hnames Hall]]].
      exists (fi :: added). rewrite <- app_assoc. simpl.
      split; [reflexivity|]. split.
      * now rewrite Hname, Hnames.
      * now constructor.
    + rewrite (scan_line_other _ _ Hdef) in H. simpl in H.
      exact (IH _ _ H).
Qed.

End Scanner.

Lemma process_lines_inv (pyfile_name : string) (pyfile_str : list string)
    (fd : file_dict) :
  process_lines pyfile_name pyfile_str = Ok fd ->
  exists first_line,
    getitem pyfile_str 0 = Ok first_line /\
    source_file fd = replace backslash "/" pyfile_name /\
    summary_comment fd
    = (if startswith "'''" first_line
       then strip_chars "'" (all_but_last first_line)
       else pyfile_name) /\
    for_each (scan_line pyfile_str) pyfile_str [] = Ok (functions fd).
Proof.
  unfold process_lines.
  destruct (getitem pyfile_str 0) as [first_line| |]; cbn [bind];
    try discriminate.
  destruct (for_each _ _ _) as [fns| |]; cbn [bind]; try discriminate.
  intros H. injection H as <-. exists first_line. repeat split.
Qed.

Lemma Forall2_nth {A B : Type} (R : A -> B -> Prop) (l1 : list A)
    (l2 : list B) :
  Forall2 R l1 l2 ->
  forall k x, nth_error l1 k = Some x ->
              exists y, nth_error l2 k = Some y /\ R x y.
Proof.
  induction 1 as [|a b l1 l2 Hab Hall IH]; intros k x Hk;
    destruct k as [|k]; simpl in *; try discriminate.
  - injection Hk as <-. now exists b.
  - now apply IH.
Qed.

(** C5, as the code has it.  When the first line begins with three
    apostrophes the summary is that line without its last character and
    without any apostrophes at either end, whitespace kept: for a line
    that is a quoted text and one more character it is the text between
    the quotes as it stands.  Otherwise the summary is the path the file
    was opened with. *)
Theorem process_lines_summary :
  forall (pyfile_name first_line : string) (rest : list string)
         (fd : file_dict),
    process_lines pyfile_name (first_line :: rest) = Ok fd ->
    (startswith "'''" first_line = true ->
     summary_comment fd = strip_chars "'" (all_but_last first_line) /\
     forall m c,
       first_line = "'''" ++ m ++ "'''" ++ String c "" ->
       match first_char m with Some a => mem a "'" = false | None => True end ->
       match last_char m with Some a => mem a "'" = false | None => True end ->
       summary_comment fd = m) /\
    (startswith "'''" first_line = false -> summary_comment fd = pyfile_name).
Proof.
  intros pyfile_name first_line rest fd H.
  destruct (process_lines_inv _ _ _ H) as [l0 [Hl0 [_ [Hsum _]]]].
  change (getitem (first_line :: rest) 0) with (Ok first_line) in Hl0.
  injection Hl0 as <-. rewrite Hsum. split.
  - intros ->. split; [reflexivity|]. intros m c -> Hfirst Hlast.
    now apply strip_quoted.
  - now intros ->.
Qed.

Lemma process_lines_util :
  process_lines "lib/util.py" lines_util = Ok record_util.
Proof. vm_compute. reflexivity. Qed.

Lemma process_lines_summary_witness :
  (startswith "'''" ("'''Utility helpers.'''" ++ LF) = true ->
   summary_comment record_util
   = strip_chars "'" (all_but_last ("'''Utility helpers.'''" ++ LF)) /\
   forall m c,
     "'''Utility helpers.'''" ++ LF = "'''" ++ m ++ "'''" ++ String c "" ->
     match first_char m with Some a => mem a "'" = false | None => True end ->
     match last_char m with Some a => mem a "'" = false | None => True end ->
     summary_comment record_util = m) /\
  (startswith "'''" ("'''Utility helpers.'''" ++ LF) = false ->
   summary_comment record_util = "lib/util.py").
Proof.
  apply (process_lines_summary "lib/util.py"
           ("'''Utility helpers.'''" ++ LF) (tl lines_util) record_util).
  vm_compute. reflexivity.
Defined.

(** C5 as stated fails: the blanks inside the quotes stay in the
    summary, which the spec's wording trims away. *)
Lemma process_lines_summary_counterexample :
  exists fd,
    process_lines "lib/util.py" [ "''' Utility helpers. '''" ++ LF ] = Ok fd /\
    startswith "'''" ("''' Utility helpers. '''" ++ LF) = true /\
    summary_comment fd = " Utility helpers. " /\
    summary_per_spec ("''' Utility helpers. '''" ++ LF) = "Utility helpers." /\
    summary_comment fd <> summary_per_spec ("''' Utility helpers. '''" ++ LF).
Proof.
  eexists. split; [vm_compute; reflexivity|].
  split; [reflexivity|]. split; [reflexivity|].
  split; [vm_compute; reflexivity|]. vm_compute. discriminate.
Qed.

(** C9.  The function records of a scanned file are those of its
    definition lines in the order of the lines: there are as many, and
    record [k] is the record the loop body builds for the [k]-th line
    that begins with the keyword, its name being the text of that line
    between the keyword and the first parenthesis. *)
Theorem process_lines_order :
  forall (pyfile_name : string) (pyfile_str : list string) (fd : file_dict),
    process_lines pyfile_name pyfile_str = Ok fd ->
    List.length (functions fd) = List.length (def_lines pyfile_str) /\
    forall k line,
      nth_error (def_lines pyfile_str) k = Some line ->
      exists fi,
        nth_error (functions fd) k = Some fi /\
        name fi = split_head "(" (drop 4 line) /\
        scan_line pyfile_str [] line = Ok [fi].
Proof.
  intros pyfile_name pyfile_str fd H.
  destruct (process_lines_inv _ _ _ H) as [_ [_ [_ [_ Hloop]]]].
  destruct (scan_loop_order pyfile_str _ _ _ Hloop)
    as [added [Hres [Hnames Hall]]].
  simpl in Hres. subst added. split.
  - apply (f_equal (@List.length _)) in Hnames.
    now rewrite !length_map in Hnames.
  - intros k line Hk.
    destruct (Forall2_nth _ _ _ Hall k line Hk) as [fi [Hfi Hscan]].
    exists fi. split; [assumption|]. split; [|assumption].
    apply (f_equal (fun l => nth_error l k)) in Hnames.
    rewrite !nth_error_map, Hfi, Hk in Hnames. simpl in Hnames.
    now injection Hnames.
Qed.

Lemma process_lines_order_witness :
  List.length (functions record_util) = List.length (def_lines lines_util) /\
  forall k line,
    nth_error (def_lines lines_util) k = Some line ->
    exists fi,
      nth_error (functions record_util) k = Some fi /\
      name fi = split_head "(" (drop 4 line) /\
      scan_line lines_util [] line = Ok [fi].
Proof.
  apply (process_lines_order "lib/util.py" lines_util record_util).
  vm_compute. reflexivity.
Defined.

(** ** Lists and loops *)

Section Loops.

Lemma index_first (l : list string) :
  forall i x,
    nth_error l i = Some x ->
    (forall m y, (m < i)%nat -> nth_error l m = Some y -> y <> x) ->
    index x l = Ok (Z.of_nat i).
Proof.
  induction l as [|y l IH]; intros i x Hi Hfirst; destruct i as [|i];
    simpl in *; try discriminate.
  - injection Hi as ->. now rewrite String.eqb_refl.
  - assert (y <> x) as Hne by (apply (Hfirst O); [lia | reflexivity]).
    apply String.eqb_neq in Hne. rewrite Hne.
    rewrite (IH i x Hi).
    + simpl. f_equal. lia.
    + intros m z Hm. apply (Hfirst (S m)). lia.
Qed.

Lemma index_in (l : list string) (x : string) :
  In x l ->
  exists i, index x l = Ok (Z.of_nat i) /\ (i < List.length l)%nat.
Proof.
  induction l as [|y l IH]; intros Hin; simpl in *; [contradiction|].
  destruct (String.eqb_spec y x) as [Heq | Hne].
  - exists O. split; [reflexivity | lia].
  - destruct Hin as [Heq | Hin]; [contradiction|].
    destruct (IH Hin) as [i [Hi Hlt]]. exists (S i). rewrite Hi. simpl.
    split; [f_equal; lia | lia].
Qed.



End Loops.

(** ** Failures of the scanner *)

Section ScannerFailures.

Variable pyfile_str : list string.

Let len : Z := Z.of_nat (List.length pyfile_str).

Lemma extract_loop_outcomes (end_mark : string) (fuel : nat) :
  forall current_str line_num,
    0 <= line_num <= len ->
    (extract_fuel pyfile_str line_num <= fuel)%nat ->
    (exists text k,
       extract_loop fuel end_mark current_str pyfile_str line_num
       = Ok (text, k) /\ line_num <= k < len) \/
    extract_loop fuel end_mark current_str pyfile_str line_num
    = Raise (IndexError len).
Proof.
  induction fuel as [|fuel IH]; intros current_str line_num Hpos Hfuel;
    simpl; destruct (getitem_cases pyfile_str line_num)
      as [[Hr [x Hx]] | [Hr Hx]]; rewrite Hx; simpl;
    unfold in_range, extract_fuel in *; fold len in Hr, Hfuel.
  - lia.
  - right. do 2 f_equal. lia.
  - destruct (contains end_mark x).
    + left. do 2 eexists. split; [reflexivity | lia].
    + destruct (IH (current_str ++ x) (line_num + 1)) as [H | H];
        [lia | fold len; lia | | now right].
      destruct H as [text [k [Hk Hle]]]. left. exists text, k.
      split; [assumption | lia].
  - right. do 2 f_equal. lia.
Qed.

Lemma extract_code_outcomes (end_mark current_str : string) (line_num : Z) :
  end_mark <> "" ->
  0 <= line_num < len ->
  (exists text k,
     extract_code end_mark current_str pyfile_str line_num = Ok (text, k) /\
     line_num <= k < len) \/
  extract_code end_mark current_str pyfile_str line_num
  = Raise (IndexError len).
Proof.
  intros Hne Hpos. unfold extract_code.
  destruct (contains end_mark current_str).
  - left. cbn [bind fst snd]. rewrite (split0_ok _ _ Hne). cbn [bind].
    do 2 eexists. split; [reflexivity | lia].
  - destruct (extract_loop_outcomes end_mark
                (extract_fuel pyfile_str (line_num + 1)) current_str
                (line_num + 1)) as [[text [k [Hk Hle]]] | H];
      [lia | lia | |].
    + left. rewrite Hk. cbn [bind fst snd].
      rewrite (split0_ok _ _ Hne). cbn [bind].
      do 2 eexists. split; [reflexivity | lia].
    + right. now rewrite H.
Qed.


Lemma scan_line_outcomes (fns : list function_info) (line : string) :
  In line pyfile_str ->
  (exists res, scan_line pyfile_str fns line = Ok res) \/
  scan_line pyfile_str fns line = Raise (IndexError len).
Proof.
  intros Hin. unfold scan_line.
  destruct (startswith "def " line); [|left; now eexists].
  destruct (index_in _ _ Hin) as [i [-> Hi]]. cbn [bind].
  rewrite (split0_ok "(") by discriminate. cbn [bind].
  destruct (extract_code_outcomes ":" (drop 4 line) (Z.of_nat i))
    as [[text [k [-> Hk]]] | ->];
    [discriminate | unfold len; lia | | now right].
  cbn [bind fst snd].
  destruct (getitem_cases pyfile_str (k + 1)) as [[Hr [x ->]] | [Hr ->]];
    cbn [bind].
  - destruct (startswith "    '''" x); [|left; now eexists].
    destruct (extract_code_outcomes "'''" (drop 7 x) (k + 1))
      as [[text' [k' [-> Hk']]] | ->];
      [discriminate | unfold in_range in Hr; fold len in Hr; lia | |
       now right].
    left. now eexists.
  - right. do 2 f_equal. unfold in_range in Hr. fold len in Hr. lia.
Qed.


End ScannerFailures.


Lemma process_file_snd (e : env) (pyfile_name : string)
    (pyfile_str : list string) :
  readlines e pyfile_name = Some pyfile_str ->
  snd (process_file e pyfile_name) = process_lines pyfile_name pyfile_str.
Proof.
  unfold readlines, process_file, io_bind, print, lift. cbn [fst snd].
  destruct (read_file e pyfile_name) as [ls| |]; try discriminate.
  intros H. injection H as ->. cbn [fst snd].
  destruct (process_lines pyfile_name pyfile_str); reflexivity.
Qed.




(** ** The driver *)

Section Driver.

Variable e : env.

Lemma process_file_fst (pyfile_name : string) :
  fst (process_file e pyfile_name)
  = [Printed ("Processing file: " ++ pyfile_name)].
Proof.
  unfold process_file, io_bind, print, lift. cbn [fst snd].
  destruct (read_file e pyfile_name) as [ls| |]; cbn [fst snd];
    [|reflexivity|reflexivity].
  destruct (process_lines pyfile_name ls); reflexivity.
Qed.

(** A loop that ends well has printed one notice per path, in order,
    and has added the record of every path without a double
    underscore, in order, and nothing else. *)
Lemma main_loop_selects (paths : list string) :
  forall mods out mods',
    main_loop e paths mods = (out, Ok mods') ->
    exists added,
      mods' = (mods ++ added)%list /\
      Forall2 (fun path fd => snd (process_file e path) = Ok fd)
        (selected paths) added /\
      out = map notice paths.
Proof.
  induction paths as [|path paths IH]; intros mods out mods' H.
  - injection H as <- <-. exists []. rewrite app_nil_r.
    repeat split. constructor.
  - cbn [main_loop] in H. unfold selected, notice. cbn [filter map].
    fold (selected paths).
    destruct (contains "__" path) eqn:Hskip; cbn [negb].
    + unfold io_bind, print in H. cbn [fst snd] in H.
      destruct (main_loop e paths mods) as [out1 [mods1| |]] eqn:Hloop;
        cbn [fst snd] in H; try discriminate.
      injection H as <- <-.
      destruct (IH _ _ _ Hloop) as [added [-> [Hall ->]]].
      exists added. repeat split. assumption.
    + unfold io_bind in H. rewrite process_file_fst in H.
      destruct (snd (process_file e path)) as [fd| |] eqn:Hfd;
        try discriminate.
      destruct (main_loop e paths (mods ++ [fd])) as [out1 [mods1| |]]
        eqn:Hloop; cbn [fst snd] in H; try discriminate.
      injection H as <- <-.
      destruct (IH _ _ _ Hloop) as [added [-> [Hall ->]]].
      exists (fd :: added). rewrite <- app_assoc.
      repeat split. now constructor.
Qed.

End Driver.

(** C4, as the code has it.  In a run that ends well every path the
    directory listing gave is handled by the text of the whole path,
    source directory included: the paths without a double underscore
    are processed, in order, and give the file records of the document;
    the paths with one are skipped, print their notice and give no
    record. *)
Theorem main_selects_by_path :
  forall (e : env) (args : arguments) (out : list event),
    main e args = (out, Ok tt) ->
    exists mods,
      Forall2 (fun path fd => snd (process_file e path) = Ok fd)
        (selected (glob e (sourcedir args ++ "/*.py"))) mods /\
      out
      = (map notice (glob e (sourcedir args ++ "/*.py"))
         ++ [ Printed ("Writing file: " ++ docfile args);
              Written (docfile args)
                (render e
                   {| header :=
                        match projectname args with
                        | Some n => n
                        | None => sourcedir args
                        end ++ " Technical Reference Guide";
                      modules := mods |}) ])%list.
Proof.
  intros e args out H. unfold main, io_bind in H.
  destruct (main_loop e _ []) as [out1 [mods| |]] eqn:Hloop;
    cbn [fst snd] in H; try discriminate.
  destruct (main_loop_selects e _ _ _ _ Hloop) as [added [Hmods [Hall ->]]].
  simpl in Hmods. subst added. exists mods. split; [assumption|].
  unfold process_output, io_bind, print, lift in H. cbn [fst snd] in H.
  destruct (write_file e (docfile args)); cbn [fst snd] in H;
    try discriminate.
  injection H as <-. reflexivity.
Qed.

Lemma main_selects_by_path_witness :
  exists mods,
    Forall2 (fun path fd =>
               snd (process_file
                      (env_of ["lib/util.py"; "lib/__init__.py"] lines_util)
                      path) = Ok fd)
      (selected
         (glob (env_of ["lib/util.py"; "lib/__init__.py"] lines_util)
            (sourcedir args_lib ++ "/*.py"))) mods /\
    fst (main (env_of ["lib/util.py"; "lib/__init__.py"] lines_util) args_lib)
    = (map notice
         (glob (env_of ["lib/util.py"; "lib/__init__.py"] lines_util)
            (sourcedir args_lib ++ "/*.py"))
       ++ [ Printed ("Writing file: " ++ docfile args_lib);
            Written (docfile args_lib)
              (render (env_of ["lib/util.py"; "lib/__init__.py"] lines_util)
                 {| header :=
                      match projectname args_lib with
                      | Some n => n
                      | None => sourcedir args_lib
                      end ++ " Technical Reference Guide";
                    modules := mods |}) ])%list.
Proof.
  apply (main_selects_by_path
           (env_of ["lib/util.py"; "lib/__init__.py"] lines_util) args_lib).
  vm_compute. reflexivity.
Defined.

(** C4 as stated fails: the file name [util.py] has no double
    underscore, the file is skipped all the same because its directory
    has one, and the document has no file section. *)
Lemma main_selects_by_path_counterexample :
  glob (env_of ["my__lib/util.py"] lines_util)
    (sourcedir args_underscored ++ "/*.py") = ["my__lib/util.py"] /\
  filename_of "my__lib/util.py" = "util.py" /\
  contains "__" (filename_of "my__lib/util.py") = false /\
  main (env_of ["my__lib/util.py"] lines_util) args_underscored
  = ([ Printed "Skipping: my__lib/util.py";
       Printed "Writing file: out.md";
       Written "out.md"
         (render (env_of ["my__lib/util.py"] lines_util)
            {| header := "my__lib Technical Reference Guide";
               modules := [] |}) ],
     Ok tt).
Proof. repeat split. Qed.

(** ** Termination

    Nothing in the program exhausts the budget of the [while] loop: every
    call returns or raises. *)

Section Termination.

Lemma getitem_total {A : Type} (l : list A) (i : Z) :
  getitem l i <> OutOfFuel.
Proof.
  destruct (getitem_cases l i) as [[_ [x ->]] | [_ ->]]; discriminate.
Qed.

Lemma index_total (x : string) (l : list string) : index x l <> OutOfFuel.
Proof.
  induction l as [|y l IH]; simpl; [discriminate|].
  destruct (String.eqb y x); [discriminate|].
  destruct (index x l); simpl; congruence.
Qed.

Lemma for_each_total {S A : Type} (body : S -> A -> outcome S)
    (l : list A) :
  (forall s x, body s x <> OutOfFuel) ->
  forall s, for_each body l s <> OutOfFuel.
Proof.
  intros Hbody. induction l as [|x l IH]; intros s; simpl;
    [discriminate|].
  pose proof (Hbody s x) as Hx.
  destruct (body s x); cbn [bind]; [apply IH | discriminate | congruence].
Qed.

Lemma scan_line_total (pyfile_str : list string)
    (fns : list function_info) (line : string) :
  scan_line pyfile_str fns line <> OutOfFuel.
Proof.
  unfold scan_line. destruct (startswith "def " line); [|discriminate].
  rewrite (split0_ok "(") by discriminate.
  pose proof (index_total line pyfile_str) as Hi.
  destruct (index line pyfile_str) as [i| |]; cbn [bind];
    [|discriminate|congruence].
  pose proof (extract_code_total ":" pyfile_str (drop 4 line) i) as He.
  destruct (extract_code ":" _ _ _) as [ex| |]; cbn [bind];
    [|discriminate|congruence].
  pose proof (getitem_total pyfile_str (snd ex + 1)) as Hg.
  destruct (getitem pyfile_str _) as [doc_line| |]; cbn [bind];
    [|discriminate|congruence].
  destruct (startswith "    '''" doc_line); [|discriminate].
  pose proof (extract_code_total "'''" pyfile_str (drop 7 doc_line)
                (snd ex + 1)) as He'.
  destruct (extract_code "'''" _ _ _) as [ex'| |]; cbn [bind];
    [discriminate|discriminate|congruence].
Qed.

Lemma process_lines_total (pyfile_name : string)
    (pyfile_str : list string) :
  process_lines pyfile_name pyfile_str <> OutOfFuel.
Proof.
  unfold process_lines.
  pose proof (getitem_total pyfile_str 0) as Hg.
  destruct (getitem pyfile_str 0); cbn [bind];
    [|discriminate|congruence].
  pose proof (for_each_total (scan_line pyfile_str) pyfile_str
                (scan_line_total pyfile_str) []) as Hf.
  destruct (for_each _ _ _); cbn [bind]; [discriminate|discriminate|congruence].
Qed.

Lemma process_file_total (e : env) (pyfile_name : string) :
  snd (process_file e pyfile_name) <> OutOfFuel.
Proof.
  destruct (readlines e pyfile_name) as [ls|] eqn:Hr.
  - rewrite (process_file_snd _ _ _ Hr). apply process_lines_total.
  - unfold readlines in Hr.
    unfold process_file, io_bind, print, lift. cbn [fst snd].
    destruct (read_file e pyfile_name); cbn [fst snd]; discriminate.
Qed.

Lemma main_loop_total (e : env) (paths : list string) :
  forall mods, snd (main_loop e paths mods) <> OutOfFuel.
Proof.
  induction paths as [|path paths IH]; intros mods; cbn [main_loop].
  - discriminate.
  - destruct (contains "__" path).
    + unfold io_bind, print. cbn [fst snd]. apply IH.
    + unfold io_bind. pose proof (process_file_total e path) as Hp.
      destruct (snd (process_file e path)); cbn [fst snd];
        [apply IH | discriminate | congruence].
Qed.

Lemma main_total (e : env) (args : arguments) :
  snd (main e args) <> OutOfFuel.
Proof.
  unfold main, io_bind.
  pose proof (main_loop_total e (glob e (sourcedir args ++ "/*.py")) [])
    as Hl.
  destruct (snd (main_loop e _ [])); cbn [fst snd];
    [|discriminate|congruence].
  unfold process_output, io_bind, print, lift. cbn [fst snd].
  destruct (write_file e (docfile args)); cbn [fst snd]; discriminate.
Qed.

End Termination.

(** ** More on the extractor *)

Section ExtractorMore.

Variables (end_mark : string) (str_array : list string).

Lemma extract_loop_classes (fuel : nat) :
  forall current_str line_num,
    (extract_fuel str_array line_num <= fuel)%nat ->
    (exists text k,
       extract_loop fuel end_mark current_str str_array line_num
       = Ok (text, k)) \/
    (exists k,
       extract_loop fuel end_mark current_str str_array line_num
       = Raise (IndexError k) /\ line_num <= k /\ ~ in_range str_array k).
Proof.
  induction fuel as [|fuel IH]; intros current_str line_num Hfuel;
    simpl; destruct (getitem_cases str_array line_num)
      as [[Hr [x Hx]] | [Hr Hx]]; rewrite Hx; simpl.
  - unfold extract_fuel, in_range in *. lia.
  - right. exists line_num. split; [reflexivity|]. split; [lia | assumption].
  - destruct (contains end_mark x); [left; now do 2 eexists|].
    destruct (IH (current_str ++ x) (line_num + 1)) as [H | [k [Hk [Hle Hout]]]].
    + unfold extract_fuel in *. lia.
    + now left.
    + right. exists k. split; [assumption|]. split; [lia | assumption].
  - right. exists line_num. split; [reflexivity|]. split; [lia | assumption].
Qed.

Lemma extract_code_clean (current_str text : string) (line_num k : Z) :
  end_mark <> "" ->
  extract_code end_mark current_str str_array line_num = Ok (text, k) ->
  contains end_mark text = false.
Proof.
  intros Hne. unfold extract_code.
  destruct (if contains end_mark current_str then _ else _) as [r| |];
    cbn [bind]; try discriminate.
  rewrite (split0_ok _ _ Hne). cbn [bind]. intros H. injection H as <- _.
  now apply split_head_clean.
Qed.

End ExtractorMore.

Lemma contains_one_app (c : ascii) (a b : string) :
  contains (String c "") (a ++ b)
  = contains (String c "") a || contains (String c "") b.
Proof.
  induction a as [|x a IH].
  - simpl. destruct b; reflexivity.
  - change (contains (String c "") (String x a ++ b))
      with (startswith (String c "") (String x (a ++ b))
            || contains (String c "") (a ++ b)).
    change (contains (String c "") (String x a))
      with (startswith (String c "") (String x a)
            || contains (String c "") a).
    rewrite IH. simpl. now rewrite !andb_true_r, orb_assoc.
Qed.

Lemma split_head_one_app (c : ascii) (a b : string) :
  contains (String c "") a = false ->
  split_head (String c "") (a ++ b) = a ++ split_head (String c "") b.
Proof.
  induction a as [|x a IH]; intros H; [reflexivity|].
  change (contains (String c "") (String x a))
    with (startswith (String c "") (String x a)
          || contains (String c "") a) in H.
  apply orb_false_elim in H. destruct H as [Hx Ha].
  simpl in Hx. rewrite andb_true_r in Hx.
  simpl. rewrite andb_true_r, Hx. now rewrite (IH Ha).
Qed.

Lemma lines_from_snoc (str_array : list string) (k : nat) :
  forall i lk,
    (forall m, i <= m < i + Z.of_nat k -> in_range str_array m) ->
    getitem str_array (i + Z.of_nat k) = Ok lk ->
    lines_from str_array i (S k) = (lines_from str_array i k ++ [lk])%list.
Proof.
  induction k as [|k IH]; intros i lk Hvalid Hlk.
  - rewrite Z.add_0_r in Hlk. simpl. now rewrite Hlk.
  - destruct (getitem_in_range str_array i) as [x Hx];
      [apply Hvalid; lia|].
    change (lines_from str_array i (S (S k)))
      with (match getitem str_array i with
            | Ok l => l :: lines_from str_array (i + 1) (S k)
            | _ => []
            end).
    change (lines_from str_array i (S k))
      with (match getitem str_array i with
            | Ok l => l :: lines_from str_array (i + 1) k
            | _ => []
            end).
    rewrite Hx. rewrite (IH (i + 1) lk); [reflexivity | |].
    + intros m Hm. apply Hvalid. lia.
    + rewrite <- Hlk. f_equal. lia.
Qed.

Lemma lines_from_in (str_array : list string) (k : nat) :
  forall i l,
    In l (lines_from str_array i k) ->
    exists m, i <= m < i + Z.of_nat k /\ getitem str_array m = Ok l.
Proof.
  induction k as [|k IH]; intros i l Hin; simpl in Hin; [contradiction|].
  destruct (getitem str_array i) as [x| |] eqn:Hx; try contradiction.
  destruct Hin as [<- | Hin].
  - exists i. split; [lia | assumption].
  - destruct (IH _ _ Hin) as [m [Hm Hl]]. exists m. split; [lia | assumption].
Qed.

Lemma join_one_free (c : ascii) (ls : list string) :
  (forall l, In l ls -> contains (String c "") l = false) ->
  contains (String c "") (join ls) = false.
Proof.
  induction ls as [|l ls IH]; intros H; [reflexivity|].
  simpl join. rewrite contains_one_app, (H l (or_introl eq_refl)), IH;
    [reflexivity|].
  intros l' Hl'. apply H. now right.
Qed.

(** X1.  [extract_code] always ends.  With the empty marker it raises
    [ValueError], whatever the other arguments.  With any other marker
    it either returns a text free of the marker, or raises the
    [IndexError] of a subscript after [line_num] that is outside the
    list; it raises nothing else. *)
Theorem extract_code_outcome_classes :
  forall (end_mark current_str : string) (str_array : list string)
         (line_num : Z),
    (end_mark = "" ->
     extract_code end_mark current_str str_array line_num
     = Raise (ValueError "empty separator")) /\
    (end_mark <> "" ->
     (exists text k,
        extract_code end_mark current_str str_array line_num = Ok (text, k) /\
        contains end_mark text = false) \/
     (exists k,
        extract_code end_mark current_str str_array line_num
        = Raise (IndexError k) /\
        line_num < k /\ ~ in_range str_array k)).
Proof.
  intros end_mark current_str str_array line_num. split.
  - intros ->. apply extract_code_empty_marker.
  - intros Hne.
    destruct (extract_code end_mark current_str str_array line_num)
      as [[text k]| |] eqn:Hcall.
    + left. exists text, k. split; [reflexivity|].
      now apply (extract_code_clean _ _ _ _ _ _ Hne Hcall).
    + right. unfold extract_code in Hcall.
      destruct (contains end_mark current_str).
      * cbn [bind fst snd] in Hcall. rewrite (split0_ok _ _ Hne) in Hcall.
        discriminate.
      * destruct (extract_loop_classes end_mark str_array
                    (extract_fuel str_array (line_num + 1)) current_str
                    (line_num + 1) (Nat.le_refl _))
          as [[text [k Hk]] | [k [Hk [Hle Hout]]]]; rewrite Hk in Hcall.
        -- cbn [bind fst snd] in Hcall.
           rewrite (split0_ok _ _ Hne) in Hcall. discriminate.
        -- cbn [bind] in Hcall. injection Hcall as <-.
           exists k. split; [reflexivity|]. split; [lia | assumption].
    + now apply extract_code_total in Hcall.
Qed.

(** X2.  Started at a position of the list, counted from its start,
    [extract_code] with a non-empty marker either returns a text free
    of the marker and a position of the list at or after the start, or
    raises the [IndexError] of the subscript one past the last line. *)
Theorem extract_code_index_in_bounds :
  forall (end_mark current_str : string) (str_array : list string)
         (line_num : Z),
    end_mark <> "" ->
    0 <= line_num < Z.of_nat (List.length str_array) ->
    (exists text k,
       extract_code end_mark current_str str_array line_num = Ok (text, k) /\
       contains end_mark text = false /\
       line_num <= k < Z.of_nat (List.length str_array)) \/
    extract_code end_mark current_str str_array line_num
    = Raise (IndexError (Z.of_nat (List.length str_array))).
Proof.
  intros end_mark current_str str_array line_num Hne Hpos.
  destruct (extract_code_outcomes str_array end_mark current_str line_num
              Hne Hpos) as [[text [k [Hcall Hk]]] | Hcall].
  - left. exists text, k. split; [assumption|]. split; [|assumption].
    exact (extract_code_clean _ _ _ _ _ _ Hne Hcall).
  - now right.
Qed.

Lemma extract_code_index_in_bounds_witness :
  (exists text k,
     extract_code "'''" "Adds." ["    '''Adds."; "    More.'''"; "    pass"] 0
     = Ok (text, k) /\
     contains "'''" text = false /\
     0 <= k < Z.of_nat (List.length ["    '''Adds."; "    More.'''"; "    pass"]))
  \/
  extract_code "'''" "Adds." ["    '''Adds."; "    More.'''"; "    pass"] 0
  = Raise (IndexError
             (Z.of_nat (List.length ["    '''Adds."; "    More.'''"; "    pass"]))).
Proof.
  apply (extract_code_index_in_bounds "'''" "Adds."
           ["    '''Adds."; "    More.'''"; "    pass"] 0).
  - discriminate.
  - simpl. lia.
Defined.

(** X3.  With a marker of one character and a seed without it, the
    text returned is the seed, then every line between [line_num] and
    the first line [j] with the marker in full, then line [j] up to its
    first marker; the index returned is [j]. *)
Theorem extract_code_one_char_marker :
  forall (c : ascii) (current_str : string) (str_array : list string)
         (line_num j : Z) (lj : string),
    contains (String c "") current_str = false ->
    in_range str_array (line_num + 1) ->
    line_num < j ->
    getitem str_array j = Ok lj ->
    contains (String c "") lj = true ->
    (forall m lm, line_num < m < j -> getitem str_array m = Ok lm ->
                  contains (String c "") lm = false) ->
    extract_code (String c "") current_str str_array line_num
    = Ok (current_str
          ++ join (lines_from str_array (line_num + 1)
                     (Z.to_nat (j - line_num - 1)))
          ++ split_head (String c "") lj,
          j).
Proof.
  intros c current_str str_array line_num j lj Hseed Hr Hlt Hj Hcj Hfree.
  pose proof (getitem_ok_in_range _ _ _ Hj) as Hrj.
  assert (forall m, line_num + 1 <= m <= j -> in_range str_array m) as Hvalid
    by (intros m Hm; unfold in_range in *; lia).
  unfold extract_code. rewrite Hseed.
  destruct (extract_loop_finds (String c "") str_array
              (Z.to_nat (j - line_num - 1))
              (extract_fuel str_array (line_num + 1)) current_str
              (line_num + 1))
    as [k [lk [Hk [Hlk [Hck [_ Heq]]]]]].
  - unfold extract_fuel, in_range in *. lia.
  - intros m Hm. apply Hvalid. lia.
  - exists lj. split; [|assumption]. rewrite <- Hj. f_equal. lia.
  - assert (line_num + 1 + Z.of_nat k = j) as Hkj.
    { destruct (Z.eq_dec (line_num + 1 + Z.of_nat k) j) as [|Hd];
        [assumption|].
      rewrite (Hfree (line_num + 1 + Z.of_nat k) lk) in Hck;
        [discriminate | lia | assumption]. }
    assert (k = Z.to_nat (j - line_num - 1)) as Hkn by lia.
    rewrite Hkj in Hlk. assert (lk = lj) as -> by congruence.
    rewrite Heq, Hkj. cbn [bind fst snd].
    rewrite split0_ok by discriminate. cbn [bind]. do 2 f_equal.
    rewrite (lines_from_snoc str_array k (line_num + 1) lj);
      [| intros m Hm; apply Hvalid; lia | rewrite <- Hj; f_equal; lia].
    rewrite join_app. simpl join. rewrite append_nil_r, <- Hkn.
    rewrite split_head_one_app by assumption.
    rewrite split_head_one_app; [reflexivity|].
    apply join_one_free. intros l Hl.
    destruct (lines_from_in _ _ _ _ Hl) as [m [Hm Hml]].
    apply (Hfree m); [lia | assumption].
Qed.

Lemma extract_code_one_char_marker_witness :
  extract_code ":" ("sub(a," ++ LF) lines_util 4
  = Ok (("sub(a," ++ LF)
        ++ join (lines_from lines_util (4 + 1) (Z.to_nat (5 - 4 - 1)))
        ++ split_head ":" ("        b):" ++ LF),
        5).
Proof.
  apply (extract_code_one_char_marker ":"%char ("sub(a," ++ LF) lines_util 4 5
           ("        b):" ++ LF)).
  - reflexivity.
  - unfold in_range. simpl. lia.
  - lia.
  - reflexivity.
  - reflexivity.
  - intros m lm Hm. lia.
Defined.

(** ** More on the file scanner *)

Lemma for_each_outcomes {S A : Type} (body : S -> A -> outcome S)
    (E : exn) (l : list A) :
  (forall x s, In x l -> (exists s', body s x = Ok s') \/ body s x = Raise E) ->
  forall s, (exists s', for_each body l s = Ok s') \/
            for_each body l s = Raise E.
Proof.
  induction l as [|y l IH]; intros Hall s; simpl.
  - left. now eexists.
  - destruct (Hall y s (or_introl eq_refl)) as [[s' Hs] | Hs]; rewrite Hs;
      cbn [bind]; [|now right].
    apply IH. intros z t Hz. apply Hall. now right.
Qed.

Lemma Forall2_in_r {A B : Type} (R : A -> B -> Prop) (l1 : list A)
    (l2 : list B) :
  Forall2 R l1 l2 ->
  forall y, In y l2 -> exists x, In x l1 /\ R x y.
Proof.
  induction 1 as [|a b l1 l2 Hab Hall IH]; intros y Hy; simpl in *;
    [contradiction|].
  destruct Hy as [<- | Hy].
  - exists a. split; [now left | assumption].
  - destruct (IH y Hy) as [x [Hx HR]]. exists x. split; [now right | assumption].
Qed.

(** What a definition line that scans has gone through. *)
Lemma scan_line_inv (pyfile_str : list string) (fns res : list function_info)
    (line : string) :
  startswith "def " line = true ->
  scan_line pyfile_str fns line = Ok res ->
  exists i ex doc_line,
    index line pyfile_str = Ok i /\
    extract_code ":" (drop 4 line) pyfile_str i = Ok ex /\
    getitem pyfile_str (snd ex + 1) = Ok doc_line /\
    ((startswith "    '''" doc_line = true /\
      exists ex',
        extract_code "'''" (drop 7 doc_line) pyfile_str (snd ex + 1) = Ok ex' /\
        res = (fns ++ [ {| name := split_head "(" (drop 4 line);
                           definition := fst ex;
                           comments := Some (fst ex') |} ])%list) \/
     (startswith "    '''" doc_line = false /\
      res = (fns ++ [ {| name := split_head "(" (drop 4 line);
                         definition := fst ex;
                         comments := None |} ])%list)).
Proof.
  intros Hdef. unfold scan_line. rewrite Hdef.
  rewrite !(split0_ok "(") by discriminate.
  destruct (index line pyfile_str) as [i| |] eqn:Hi; cbn [bind];
    try discriminate.
  destruct (extract_code ":" _ _ _) as [ex| |] eqn:Hex; cbn [bind];
    try discriminate.
  destruct (getitem pyfile_str _) as [doc_line| |] eqn:Hget; cbn [bind];
    try discriminate.
  destruct (startswith "    '''" doc_line) eqn:Hdoc.
  - destruct (extract_code "'''" _ _ _) as [ex'| |] eqn:Hex'; cbn [bind];
      try discriminate.
    intros H. injection H as <-. exists i, ex, doc_line.
    split; [reflexivity|]. split; [assumption|]. split; [assumption|].
    left. split; [assumption|]. exists ex'. split; [assumption|reflexivity].
  - intros H. injection H as <-. exists i, ex, doc_line.
    split; [reflexivity|]. split; [assumption|]. split; [assumption|].
    right. split; [assumption|reflexivity].
Qed.

Lemma scanned_records (pyfile_name : string) (pyfile_str : list string)
    (fd : file_dict) :
  process_lines pyfile_name pyfile_str = Ok fd ->
  Forall2 (fun line fi => scan_line pyfile_str [] line = Ok [fi])
    (def_lines pyfile_str) (functions fd).
Proof.
  intros H. destruct (process_lines_inv _ _ _ H) as [_ [_ [_ [_ Hloop]]]].
  destruct (scan_loop_order pyfile_str _ _ _ Hloop) as [added [Hres [_ Hall]]].
  simpl in Hres. now subst added.
Qed.

Lemma def_lines_start (pyfile_str : list string) (line : string) :
  In line (def_lines pyfile_str) -> startswith "def " line = true.
Proof. unfold def_lines. intros H. now apply filter_In in H. Qed.

Lemma process_lines_classes :
  forall (pyfile_name : string) (pyfile_str : list string),
    (exists fd, process_lines pyfile_name pyfile_str = Ok fd) \/
    process_lines pyfile_name pyfile_str
    = Raise (IndexError (Z.of_nat (List.length pyfile_str))).
Proof.
  intros pyfile_name pyfile_str. unfold process_lines.
  destruct pyfile_str as [|first_line rest] eqn:Hp; [now right|].
  rewrite <- Hp.
  assert (getitem pyfile_str 0 = Ok first_line) as -> by now subst.
  cbn [bind].
  destruct (for_each_outcomes (scan_line pyfile_str)
              (IndexError (Z.of_nat (List.length pyfile_str))) pyfile_str)
    with (s := @nil function_info) as [[fns ->] | ->].
  - intros x s Hx. now apply scan_line_outcomes.
  - left. now eexists.
  - now right.
Qed.

(** X4.  Scanning the lines of a file either returns a record or
    raises the [IndexError] of the subscript one past the last line (0
    for an empty file); it fails in no other way. *)
Theorem process_lines_outcomes :
  forall (pyfile_name : string) (pyfile_str : list string),
    (exists fd, process_lines pyfile_name pyfile_str = Ok fd) \/
    process_lines pyfile_name pyfile_str
    = Raise (IndexError (Z.of_nat (List.length pyfile_str))).
Proof.
  intros pyfile_name pyfile_str.
  destruct (process_lines_classes pyfile_name pyfile_str) as [[fd H] | H].
  - left. now exists fd.
  - now right.
Qed.

(** X5.  In a record of a scanned file the name of a function has no
    opening parenthesis, its signature text has no colon and its
    docstring text, when there is one, has no triple quote. *)
Theorem process_lines_fields_clean :
  forall (pyfile_name : string) (pyfile_str : list string) (fd : file_dict)
         (fi : function_info),
    process_lines pyfile_name pyfile_str = Ok fd ->
    In fi (functions fd) ->
    contains "(" (name fi) = false /\
    contains ":" (definition fi) = false /\
    forall c, comments fi = Some c -> contains "'''" c = false.
Proof.
  intros pyfile_name pyfile_str fd fi H Hfi.
  destruct (Forall2_in_r _ _ _ (scanned_records _ _ _ H) fi Hfi)
    as [line [Hline Hscan]].
  destruct (scan_line_inv _ _ _ _ (def_lines_start _ _ Hline) Hscan)
    as [i [[text k] [doc_line [_ [Hex [_ Hres]]]]]].
  assert (contains ":" text = false) as Htext
    by (apply (extract_code_clean ":" pyfile_str _ _ _ _) in Hex;
        [assumption | discriminate]).
  destruct Hres as [[_ [[text' k'] [Hex' Hres]]] | [_ Hres]];
    simpl in Hres; injection Hres as ->; cbn [name definition comments fst].
  - split; [now apply split_head_clean|]. split; [assumption|].
    intros c Hc. injection Hc as <-.
    apply (extract_code_clean _ pyfile_str _ _ _ _) in Hex';
      [assumption | discriminate].
  - split; [now apply split_head_clean|]. split; [assumption|].
    discriminate.
Qed.

Lemma process_lines_fields_clean_witness :
  contains "(" (name {| name := "sub";
                        definition := "sub(a," ++ LF ++ "        b)";
                        comments := None |}) = false /\
  contains ":" (definition {| name := "sub";
                              definition := "sub(a," ++ LF ++ "        b)";
                              comments := None |}) = false /\
  forall c, comments {| name := "sub";
                        definition := "sub(a," ++ LF ++ "        b)";
                        comments := None |} = Some c ->
            contains "'''" c = false.
Proof.
  apply (process_lines_fields_clean "lib/util.py" lines_util record_util).
  - vm_compute. reflexivity.
  - right. left. reflexivity.
Defined.

Lemma subst_char_free (c by_c : ascii) (s : string) :
  c <> by_c -> contains (String c "") (subst_char c by_c s) = false.
Proof.
  intros Hne. induction s as [|d s IH]; [reflexivity|].
  simpl subst_char.
  change (contains (String c "") (String ?x ?t))
    with (startswith (String c "") (String x t) || contains (String c "") t).
  rewrite IH, orb_false_r. simpl. rewrite andb_true_r.
  destruct (Ascii.eqb_spec d c) as [-> | Hd].
  - now apply Ascii.eqb_neq.
  - apply Ascii.eqb_neq. congruence.
Qed.

Lemma subst_char_id (c by_c : ascii) (s : string) :
  contains (String c "") s = false -> subst_char c by_c s = s.
Proof.
  induction s as [|d s IH]; intros H; [reflexivity|].
  change (contains (String c "") (String d s))
    with (startswith (String c "") (String d s) || contains (String c "") s)
    in H.
  apply orb_false_elim in H. destruct H as [Hd Hs].
  simpl in Hd. rewrite andb_true_r, Ascii.eqb_sym in Hd.
  simpl. now rewrite Hd, (IH Hs).
Qed.

Lemma subst_char_length (c by_c : ascii) (s : string) :
  String.length (subst_char c by_c s) = String.length s.
Proof. induction s as [|d s IH]; simpl; [reflexivity | now rewrite IH]. Qed.

(** X6.  The source path kept in a record is the path the file was
    opened with, with every backslash turned into a slash: it has no
    backslash, it is as long as the path, and it is the path itself
    when that has no backslash. *)
Theorem process_lines_source_file :
  forall (pyfile_name : string) (pyfile_str : list string) (fd : file_dict),
    process_lines pyfile_name pyfile_str = Ok fd ->
    source_file fd = subst_char "092" "/" pyfile_name /\
    contains backslash (source_file fd) = false /\
    String.length (source_file fd) = String.length pyfile_name /\
    (contains backslash pyfile_name = false -> source_file fd = pyfile_name).
Proof.
  intros pyfile_name pyfile_str fd H.
  destruct (process_lines_inv _ _ _ H) as [_ [_ [-> _]]].
  unfold backslash. rewrite replace_subst_char.
  split; [reflexivity|]. split; [now apply subst_char_free|].
  split; [apply subst_char_length|]. apply subst_char_id.
Qed.

Lemma process_lines_source_file_witness :
  source_file record_util = subst_char "092" "/" "lib/util.py" /\
  contains backslash (source_file record_util) = false /\
  String.length (source_file record_util) = String.length "lib/util.py" /\
  (contains backslash "lib/util.py" = false ->
   source_file record_util = "lib/util.py").
Proof.
  apply (process_lines_source_file "lib/util.py" lines_util record_util).
  vm_compute. reflexivity.
Defined.

Lemma lstrip_chars_decomp (chars s : string) :
  exists a,
    s = a ++ lstrip_chars chars s /\
    (forall c, mem c a = true -> mem c chars = true).
Proof.
  induction s as [|d s [a [Ha Hall]]]; simpl.
  - exists "". split; [reflexivity | discriminate].
  - destruct (mem d chars) eqn:Hd.
    + exists (String d a). split; [simpl; now rewrite <- Ha|].
      intros c. simpl. destruct (Ascii.eqb_spec c d) as [-> | _];
        [now intros _ | apply Hall].
    + exists "". split; [reflexivity | discriminate].
Qed.

Lemma rstrip_chars_decomp (chars s : string) :
  exists b,
    s = rstrip_chars chars s ++ b /\
    (forall c, mem c b = true -> mem c chars = true).
Proof.
  induction s as [|d s [b [Hb Hall]]]; simpl.
  - exists "". split; [reflexivity | discriminate].
  - destruct (rstrip_chars chars s) as [|x t] eqn:Hr.
    + simpl in Hb. subst b. destruct (mem d chars) eqn:Hd.
      * exists (String d s). split; [reflexivity|].
        intros c. simpl. destruct (Ascii.eqb_spec c d) as [-> | _];
          [now intros _ | apply Hall].
      * exists s. split; [reflexivity | assumption].
    + exists b. split; [simpl; now rewrite Hb | assumption].
Qed.

Lemma lstrip_chars_first (chars s : string) :
  match first_char (lstrip_chars chars s) with
  | Some c => mem c chars = false
  | None => True
  end.
Proof.
  induction s as [|d s IH]; simpl; [exact I|].
  destruct (mem d chars) eqn:Hd; [exact IH | exact Hd].
Qed.

Lemma rstrip_chars_last (chars s : string) :
  match last_char (rstrip_chars chars s) with
  | Some c => mem c chars = false
  | None => True
  end.
Proof.
  induction s as [|d s IH]; simpl; [exact I|].
  destruct (rstrip_chars chars s) as [|x t].
  - destruct (mem d chars) eqn:Hd; [exact I | exact Hd].
  - exact IH.
Qed.

Lemma rstrip_chars_first (chars s : string) :
  match first_char (rstrip_chars chars s) with
  | Some c => first_char s = Some c
  | None => True
  end.
Proof.
  destruct s as [|d s]; simpl; [exact I|].
  destruct (rstrip_chars chars s).
  - destruct (mem d chars); [exact I | reflexivity].
  - reflexivity.
Qed.

(** X7.  A summary taken from the first line is that line without its
    last character, with a run of apostrophes cut off at each end and
    nothing else: it neither begins nor ends with an apostrophe. *)
Theorem process_lines_summary_stripped :
  forall (pyfile_name first_line : string) (rest : list string)
         (fd : file_dict),
    process_lines pyfile_name (first_line :: rest) = Ok fd ->
    startswith "'''" first_line = true ->
    (exists a b,
       all_but_last first_line = a ++ summary_comment fd ++ b /\
       (forall c, mem c a = true -> c = "'"%char) /\
       (forall c, mem c b = true -> c = "'"%char)) /\
    first_char (summary_comment fd) <> Some "'"%char /\
    last_char (summary_comment fd) <> Some "'"%char.
Proof.
  intros pyfile_name first_line rest fd H Hstart.
  destruct (process_lines_inv _ _ _ H) as [l0 [Hl0 [_ [Hsum _]]]].
  change (getitem (first_line :: rest) 0) with (Ok first_line) in Hl0.
  injection Hl0 as <-. rewrite Hstart in Hsum. rewrite Hsum.
  unfold strip_chars.
  set (s := all_but_last first_line).
  assert (forall c, mem c "'" = true -> c = "'"%char) as Hquote.
  { intros c. simpl. rewrite orb_false_r. apply Ascii.eqb_eq. }
  split; [|split].
  - destruct (lstrip_chars_decomp "'" s) as [a [Ha Hall]].
    destruct (rstrip_chars_decomp "'" (lstrip_chars "'" s)) as [b [Hb Hbll]].
    exists a, b. split; [now rewrite <- Hb|]. split; intros c Hc.
    + now apply Hquote, Hall.
    + now apply Hquote, Hbll.
  - pose proof (rstrip_chars_first "'" (lstrip_chars "'" s)) as Hf.
    pose proof (lstrip_chars_first "'" s) as Hl.
    destruct (first_char (rstrip_chars "'" (lstrip_chars "'" s))) as [c|];
      [|discriminate].
    rewrite Hf in Hl. intros Hc. injection Hc as ->. discriminate.
  - pose proof (rstrip_chars_last "'" (lstrip_chars "'" s)) as Hl.
    destruct (last_char (rstrip_chars "'" (lstrip_chars "'" s))) as [c|];
      [|discriminate].
    intros Hc. injection Hc as ->. discriminate.
Qed.

Lemma process_lines_summary_stripped_witness :
  (exists a b,
     all_but_last ("'''Utility helpers.'''" ++ LF)
     = a ++ summary_comment record_util ++ b /\
     (forall c, mem c a = true -> c = "'"%char) /\
     (forall c, mem c b = true -> c = "'"%char)) /\
  first_char (summary_comment record_util) <> Some "'"%char /\
  last_char (summary_comment record_util) <> Some "'"%char.
Proof.
  apply (process_lines_summary_stripped "lib/util.py"
           ("'''Utility helpers.'''" ++ LF) (tl lines_util) record_util).
  - vm_compute. reflexivity.
  - reflexivity.
Defined.

Lemma scan_loop_no_defs (pyfile_str l : list string) :
  def_lines l = [] ->
  forall fns, for_each (scan_line pyfile_str) l fns = Ok fns.
Proof.
  unfold def_lines. induction l as [|line l IH]; intros Hnone fns;
    [reflexivity|].
  cbn [filter] in Hnone. cbn [for_each].
  destruct (startswith "def " line) eqn:Hdef; [discriminate|].
  rewrite (scan_line_other _ _ _ Hdef). cbn [bind]. now apply IH.
Qed.

(** X8.  A file with at least one line and no definition line always
    scans, and its record has no function. *)
Theorem process_lines_no_defs :
  forall (pyfile_name first_line : string) (rest : list string),
    def_lines (first_line :: rest) = [] ->
    exists fd,
      process_lines pyfile_name (first_line :: rest) = Ok fd /\
      functions fd = [].
Proof.
  intros pyfile_name first_line rest Hnone. unfold process_lines.
  change (getitem (first_line :: rest) 0) with (Ok first_line).
  cbn [bind]. rewrite (scan_loop_no_defs _ _ Hnone). cbn [bind].
  eexists. split; reflexivity.
Qed.

Lemma process_lines_no_defs_witness :
  exists fd,
    process_lines "lib/notes.py"
      (("'''Notes.'''" ++ LF) :: [ "X = 1" ++ LF; "    def inner():" ++ LF ])
    = Ok fd /\
    functions fd = [].
Proof.
  apply (process_lines_no_defs "lib/notes.py" ("'''Notes.'''" ++ LF)
           [ "X = 1" ++ LF; "    def inner():" ++ LF ]).
  reflexivity.
Defined.

(** X9.  Definition lines with the same text give the same record:
    the line is looked up by its text, so the signature and the
    docstring of a later copy are those found at the first one. *)
Theorem process_lines_equal_lines :
  forall (pyfile_name : string) (pyfile_str : list string) (fd : file_dict)
         (k1 k2 : nat) (line : string) (fi1 fi2 : function_info),
    process_lines pyfile_name pyfile_str = Ok fd ->
    nth_error (def_lines pyfile_str) k1 = Some line ->
    nth_error (def_lines pyfile_str) k2 = Some line ->
    nth_error (functions fd) k1 = Some fi1 ->
    nth_error (functions fd) k2 = Some fi2 ->
    fi1 = fi2.
Proof.
  intros pyfile_name pyfile_str fd k1 k2 line fi1 fi2 H Hk1 Hk2 Hf1 Hf2.
  pose proof (scanned_records _ _ _ H) as Hall.
  destruct (Forall2_nth _ _ _ Hall k1 line Hk1) as [g1 [Hg1 Hs1]].
  destruct (Forall2_nth _ _ _ Hall k2 line Hk2) as [g2 [Hg2 Hs2]].
  congruence.
Qed.

Lemma process_lines_equal_lines_witness :
  {| name := "f"; definition := "f(a," ++ LF ++ "      b)";
     comments := None |}
  = {| name := "f"; definition := "f(a," ++ LF ++ "      b)";
       comments := None |}.
Proof.
  apply (process_lines_equal_lines "lib/two.py" lines_two_copies
           record_two_copies 0%nat 1%nat ("def f(a," ++ LF)).
  - vm_compute. reflexivity.
  - reflexivity.
  - reflexivity.
  - reflexivity.
  - reflexivity.
Defined.

Lemma split_head_at_one (c : ascii) (a r : string) :
  contains (String c "") a = false ->
  split_head (String c "") (a ++ String c r) = a.
Proof.
  intros H. rewrite (split_head_one_app c a (String c r) H).
  simpl. rewrite Ascii.eqb_refl. simpl. apply append_nil_r.
Qed.

Lemma extract_code_seeded (end_mark current_str : string)
    (str_array : list string) (line_num : Z) :
  end_mark <> "" ->
  contains end_mark current_str = true ->
  extract_code end_mark current_str str_array line_num
  = Ok (split_head end_mark current_str, line_num).
Proof.
  intros Hne Hc. unfold extract_code. rewrite Hc. cbn [bind fst snd].
  now rewrite (split0_ok _ _ Hne).
Qed.

(** X10.  A definition line that has its colon on the line itself
    gives a record whose signature text is the text between the keyword
    and the first colon of the line, whatever the rest of the file. *)
Theorem process_lines_one_line_signature :
  forall (pyfile_name : string) (pyfile_str : list string) (fd : file_dict)
         (k : nat) (sig rest : string),
    process_lines pyfile_name pyfile_str = Ok fd ->
    nth_error (def_lines pyfile_str) k = Some ("def " ++ sig ++ ":" ++ rest) ->
    contains ":" sig = false ->
    exists fi,
      nth_error (functions fd) k = Some fi /\
      definition fi = sig /\
      name fi = split_head "(" (sig ++ ":" ++ rest).
Proof.
  intros pyfile_name pyfile_str fd k sig rest H Hk Hsig.
  pose proof (scanned_records _ _ _ H) as Hall.
  destruct (Forall2_nth _ _ _ Hall k _ Hk) as [fi [Hfi Hscan]].
  exists fi. split; [assumption|].
  destruct (scan_line_inv pyfile_str [] [fi] ("def " ++ sig ++ ":" ++ rest)
              eq_refl Hscan)
    as [i [ex [doc_line [_ [Hex [_ Hres]]]]]].
  change (drop 4 ("def " ++ sig ++ ":" ++ rest)) with (sig ++ ":" ++ rest)
    in *.
  rewrite extract_code_seeded in Hex.
  - injection Hex as <-. cbn [fst] in Hres.
    rewrite (split_head_at_one ":" sig rest Hsig) in Hres.
    destruct Hres as [[_ [ex' [_ Hres]]] | [_ Hres]];
      cbn [app] in Hres; injection Hres as ->; split; reflexivity.
  - discriminate.
  - rewrite contains_one_app. simpl. apply orb_true_r.
Qed.

Lemma process_lines_one_line_signature_witness :
  exists fi,
    nth_error (functions record_util) 0 = Some fi /\
    definition fi = "add(a, b)" /\
    name fi = split_head "(" ("add(a, b)" ++ ":" ++ LF).
Proof.
  apply (process_lines_one_line_signature "lib/util.py" lines_util
           record_util 0%nat "add(a, b)" LF).
  - vm_compute. reflexivity.
  - reflexivity.
  - reflexivity.
Defined.

Lemma Forall2_in_l {A B : Type} (R : A -> B -> Prop) (l1 : list A)
    (l2 : list B) :
  Forall2 R l1 l2 ->
  forall x, In x l1 -> exists y, In y l2 /\ R x y.
Proof.
  induction 1 as [|a b l1 l2 Hab Hall IH]; intros x Hx; simpl in *;
    [contradiction|].
  destruct Hx as [<- | Hx].
  - exists b. split; [now left | assumption].
  - destruct (IH x Hx) as [y [Hy HR]]. exists y. split; [now right | assumption].
Qed.

(** X11.  For a definition line that is the first line with its text,
    has its colon on the line and is followed by a line that is either
    no docstring opener or a docstring closed on the same line, the
    record is known in full: the signature is the text up to the colon,
    the docstring is the text between the opener and the first closer
    of the next line, or absent. *)
Theorem process_lines_one_line_docstring :
  forall (pyfile_name : string) (pyfile_str : list string) (fd : file_dict)
         (i : nat) (sig rest doc_line : string),
    process_lines pyfile_name pyfile_str = Ok fd ->
    nth_error pyfile_str i = Some ("def " ++ sig ++ ":" ++ rest) ->
    (forall m lm, (m < i)%nat -> nth_error pyfile_str m = Some lm ->
                  lm <> "def " ++ sig ++ ":" ++ rest) ->
    contains ":" sig = false ->
    nth_error pyfile_str (S i) = Some doc_line ->
    (startswith "    '''" doc_line = true ->
     contains "'''" (drop 7 doc_line) = true) ->
    In {| name := split_head "(" (sig ++ ":" ++ rest);
          definition := sig;
          comments := if startswith "    '''" doc_line
                      then Some (split_head "'''" (drop 7 doc_line))
                      else None |}
       (functions fd).
Proof.
  intros pyfile_name pyfile_str fd i sig rest doc_line H Hline Hfirst Hsig
    Hnext Hclosed.
  set (line := "def " ++ sig ++ ":" ++ rest) in *.
  assert (In line (def_lines pyfile_str)) as Hin.
  { unfold def_lines. apply filter_In. split; [|reflexivity].
    now apply nth_error_In with i. }
  destruct (Forall2_in_l _ _ _ (scanned_records _ _ _ H) line Hin)
    as [fi [Hfi Hscan]].
  assert (getitem pyfile_str (Z.of_nat i + 1) = Ok doc_line) as Hget.
  { apply getitem_nonneg; [lia|].
    now replace (Z.to_nat (Z.of_nat i + 1)) with (S i) by lia. }
  unfold scan_line in Hscan.
  change (startswith "def " line) with true in Hscan.
  rewrite (index_first _ _ _ Hline Hfirst) in Hscan. cbn [bind] in Hscan.
  rewrite (split0_ok "(") in Hscan by discriminate. cbn [bind] in Hscan.
  change (drop 4 line) with (sig ++ ":" ++ rest) in Hscan.
  rewrite extract_code_seeded in Hscan;
    [| discriminate | rewrite contains_one_app; simpl; apply orb_true_r].
  cbn [bind fst snd] in Hscan.
  pose proof (split_head_at_one ":" sig rest Hsig) as Hcut.
  change (String ":" rest) with (":" ++ rest) in Hcut.
  rewrite Hcut, Hget in Hscan. cbn [bind] in Hscan.
  destruct (startswith "    '''" doc_line).
  - rewrite extract_code_seeded in Hscan;
      [| discriminate | now apply Hclosed].
    cbn [bind fst app] in Hscan. now injection Hscan as <-.
  - cbn [app] in Hscan. now injection Hscan as <-.
Qed.

Lemma process_lines_one_line_docstring_witness :
  In {| name := split_head "(" ("add(a, b)" ++ ":" ++ LF);
        definition := "add(a, b)";
        comments := if startswith "    '''" ("    '''Returns a + b.'''" ++ LF)
                    then Some (split_head "'''"
                                 (drop 7 ("    '''Returns a + b.'''" ++ LF)))
                    else None |}
     (functions record_util).
Proof.
  apply (process_lines_one_line_docstring "lib/util.py" lines_util
           record_util 1%nat "add(a, b)" LF
           ("    '''Returns a + b.'''" ++ LF)).
  - vm_compute. reflexivity.
  - reflexivity.
  - intros m lm Hm Hlm. assert (m = 0%nat) as -> by lia.
    vm_compute in Hlm. injection Hlm as <-. discriminate.
  - reflexivity.
  - reflexivity.
  - intros _. reflexivity.
Defined.

(** ** More on the renderer *)

Lemma lower_char_fixed (c : ascii) : lower_char (lower_char c) = lower_char c.
Proof.
  destruct c as [[] [] [] [] [] [] [] []]; vm_compute; reflexivity.
Qed.

Lemma lower_char_not (c d : ascii) :
  d = " "%char \/ d = "."%char ->
  c <> d -> lower_char c <> d.
Proof.
  intros [-> | ->]; destruct c as [[] [] [] [] [] [] [] []];
    vm_compute; congruence.
Qed.

Lemma contains_one_mem (c : ascii) (s : string) :
  contains (String c "") s = mem c s.
Proof.
  induction s as [|d s IH]; [reflexivity|].
  change (contains (String c "") (String d s))
    with (startswith (String c "") (String d s) || contains (String c "") s).
  rewrite IH. simpl. now rewrite andb_true_r.
Qed.

Lemma mem_lower (d : ascii) (s : string) :
  d = " "%char \/ d = "."%char ->
  mem d s = false -> mem d (lower s) = false.
Proof.
  intros Hd. induction s as [|c s IH]; [reflexivity|]. simpl.
  intros H. apply orb_false_elim in H. destruct H as [Hc Hs].
  rewrite (IH Hs), orb_false_r. apply Ascii.eqb_neq. apply Ascii.eqb_neq in Hc.
  intros Heq. apply (lower_char_not c d Hd); congruence.
Qed.

Lemma mem_subst_char (c by_c d : ascii) (s : string) :
  d <> by_c -> mem d s = false -> mem d (subst_char c by_c s) = false.
Proof.
  intros Hd. induction s as [|x s IH]; [reflexivity|]. simpl.
  intros H. apply orb_false_elim in H. destruct H as [Hx Hs].
  rewrite (IH Hs), orb_false_r.
  destruct (Ascii.eqb x c); [now apply Ascii.eqb_neq | assumption].
Qed.

Lemma mem_remove_char (c : ascii) (s : string) :
  mem c (remove_char c s) = false.
Proof.
  induction s as [|x s IH]; [reflexivity|]. simpl.
  destruct (Ascii.eqb x c) eqn:Hx; [assumption|].
  simpl. now rewrite Ascii.eqb_sym, Hx, IH.
Qed.

Lemma lower_fixed (s : string) : lower (lower s) = lower s.
Proof.
  induction s as [|c s IH]; simpl; [reflexivity|].
  now rewrite lower_char_fixed, IH.
Qed.

(** X12.  The link anchor written for a summary has no space and no
    period, and lowercasing it again changes nothing. *)
Theorem contents_anchor_shape :
  forall (chapter_name : string),
    let chapter_link :=
      lower (replace " " "-" (replace "." "" (lstrip chapter_name))) in
    contains " " chapter_link = false /\
    contains "." chapter_link = false /\
    lower chapter_link = chapter_link.
Proof.
  intros chapter_name chapter_link. unfold chapter_link.
  rewrite replace_remove_char, replace_subst_char, !contains_one_mem.
  split; [|split].
  - apply mem_lower; [now left|].
    pose proof (subst_char_free " " "-" (remove_char "." (lstrip chapter_name)))
      as H.
    rewrite contains_one_mem in H. apply H. discriminate.
  - apply mem_lower; [now right|]. apply mem_subst_char; [discriminate|].
    apply mem_remove_char.
  - apply lower_fixed.
Qed.

(** ** More on the driver *)

Section DriverMore.

Lemma process_file_events (e : env) (pyfile_name : string) :
  process_file e pyfile_name
  = ([Printed ("Processing file: " ++ pyfile_name)],
     snd (process_file e pyfile_name)).
Proof.
  rewrite <- (process_file_fst e pyfile_name).
  now destruct (process_file e pyfile_name).
Qed.

Lemma printed_only_app (out1 out2 : list event) :
  printed_only out1 -> printed_only out2 -> printed_only (out1 ++ out2).
Proof.
  intros H1 H2 ev Hev. apply in_app_or in Hev.
  destruct Hev; [now apply H1 | now apply H2].
Qed.

Lemma printed_only_one (line : string) : printed_only [Printed line].
Proof.
  intros ev [<- | []]. now exists line.
Qed.

Lemma main_loop_prints (e : env) (paths : list string) :
  forall mods, printed_only (fst (main_loop e paths mods)).
Proof.
  induction paths as [|path paths IH]; intros mods; cbn [main_loop].
  - intros ev [].
  - destruct (contains "__" path).
    + unfold io_bind, print. cbn [fst snd].
      apply printed_only_app; [apply printed_only_one | apply IH].
    + unfold io_bind. rewrite process_file_events. cbn [fst snd].
      destruct (snd (process_file e path)); cbn [fst snd];
        try apply printed_only_one.
      apply printed_only_app; [apply printed_only_one | apply IH].
Qed.


Lemma selected_cons (path : string) (paths : list string) :
  selected (path :: paths)
  = if contains "__" path then selected paths else path :: selected paths.
Proof. unfold selected. cbn [filter]. now destruct (contains "__" path). Qed.



(** A loop that raises has met a path without a double underscore that
    does not scan, after scanning all such paths before it. *)
Lemma main_loop_fails (e : env) (paths : list string) :
  forall mods E,
    snd (main_loop e paths mods) = Raise E ->
    exists l1 p l2,
      paths = (l1 ++ p :: l2)%list /\
      contains "__" p = false /\
      (forall q, In q (selected l1) ->
                 exists fd, snd (process_file e q) = Ok fd) /\
      snd (process_file e p) = Raise E.
Proof.
  induction paths as [|path paths IH]; intros mods E H; [discriminate|].
  cbn [main_loop] in H. destruct (contains "__" path) eqn:Hskip.
  - unfold io_bind, print in H. cbn [fst snd] in H.
    destruct (IH _ _ H) as [l1 [p [l2 [-> [Hp [Hok Hfail]]]]]].
    exists (path :: l1), p, l2. split; [reflexivity|]. split; [assumption|].
    split; [|assumption]. rewrite selected_cons, Hskip. exact Hok.
  - unfold io_bind in H.
    destruct (snd (process_file e path)) as [fd|E'|] eqn:Hfd;
      cbn [fst snd] in H.
    + destruct (IH _ _ H) as [l1 [p [l2 [-> [Hp [Hok Hfail]]]]]].
      exists (path :: l1), p, l2. split; [reflexivity|].
      split; [assumption|]. split; [|assumption].
      rewrite selected_cons, Hskip. intros q [<- | Hq];
        [now exists fd | now apply Hok].
    + injection H as ->. exists [], path, paths.
      split; [reflexivity|]. split; [assumption|]. split; [|assumption].
      intros q [].
    + discriminate.
Qed.

(** A loop that ends well has scanned every path without a double
    underscore. *)
Lemma main_loop_scans_all (e : env) (paths : list string)
    (mods mods' : list file_dict) (out : list event) :
  main_loop e paths mods = (out, Ok mods') ->
  forall q, In q (selected paths) ->
            exists fd, snd (process_file e q) = Ok fd.
Proof.
  intros H q Hq.
  destruct (main_loop_selects e _ _ _ _ H) as [added [_ [Hall _]]].
  destruct (Forall2_in_l _ _ _ Hall q Hq) as [fd [_ Hfd]]. now exists fd.
Qed.


End DriverMore.

(** X13.  A run touches the output file as its very last step, after
    every selected file has been scanned.  A run that ends well has
    printed lines followed by one write of the document.  A run that
    raises has printed lines only, or, when the failure comes while
    writing to the output file already opened, printed lines followed
    by the clobbering of that file. *)
Theorem main_writes_last :
  forall (e : env) (args : arguments),
    (snd (main e args) = Ok tt ->
     exists pre doc,
       fst (main e args) = (pre ++ [Written (docfile args) doc])%list /\
       printed_only pre) /\
    (snd (main e args) <> Ok tt ->
     printed_only (fst (main e args)) \/
     exists pre,
       fst (main e args) = (pre ++ [Clobbered (docfile args)])%list /\
       printed_only pre /\
       (forall q, In q (selected (glob e (sourcedir args ++ "/*.py"))) ->
                  exists fd, snd (process_file e q) = Ok fd) /\
       (write_file e (docfile args) = EncodeFails \/
        write_file e (docfile args) = WriteFails)).
Proof.
  intros e args. unfold main, io_bind.
  pose proof (main_loop_prints e (glob e (sourcedir args ++ "/*.py")) [])
    as Hloop.
  pose proof (main_loop_scans_all e (glob e (sourcedir args ++ "/*.py")) [])
    as Hall.
  destruct (main_loop e _ []) as [out1 [mods| |]]; cbn [fst snd] in *.
  - specialize (Hall mods out1 eq_refl).
    assert (printed_only
              (out1 ++ [Printed ("Writing file: " ++ docfile args)])%list)
      as Hpre
      by (apply printed_only_app; [assumption | apply printed_only_one]).
    unfold process_output, io_bind, print, lift. cbn [fst snd].
    destruct (write_file e (docfile args)); cbn [fst snd].
    + split; [|congruence]. intros _.
      exists (out1 ++ [Printed ("Writing file: " ++ docfile args)])%list.
      eexists. split; [now rewrite <- app_assoc | assumption].
    + split; [discriminate|]. intros _. left. now rewrite app_nil_r.
    + split; [discriminate|]. intros _. right.
      exists (out1 ++ [Printed ("Writing file: " ++ docfile args)])%list.
      split; [now rewrite <- app_assoc|]. split; [assumption|].
      split; [assumption | now left].
    + split; [discriminate|]. intros _. right.
      exists (out1 ++ [Printed ("Writing file: " ++ docfile args)])%list.
      split; [now rewrite <- app_assoc|]. split; [assumption|].
      split; [assumption | now right].
  - split; [discriminate | intros _; now left].
  - split; [discriminate | intros _; now left].
Qed.





(** X16.  An [IndexError] of a run always comes from the scanning of a
    file: the listing has a first path without a double underscore
    that does not scan, every such path before it scans, that file was
    read, and the failing subscript is one past its last line. *)
Theorem main_index_error_source :
  forall (e : env) (args : arguments) (k : Z),
    snd (main e args) = Raise (IndexError k) ->
    exists l1 p l2 ls,
      glob e (sourcedir args ++ "/*.py") = (l1 ++ p :: l2)%list /\
      contains "__" p = false /\
      (forall q, In q (selected l1) ->
                 exists fd, snd (process_file e q) = Ok fd) /\
      readlines e p = Some ls /\
      process_lines p ls = Raise (IndexError k) /\
      k = Z.of_nat (List.length ls).
Proof.
  intros e args k. unfold main, io_bind.
  pose proof (main_loop_fails e (glob e (sourcedir args ++ "/*.py")) [])
    as Hfails.
  destruct (main_loop e _ []) as [out1 [mods|E|]]; cbn [fst snd] in *.
  - unfold process_output, io_bind, print, lift. cbn [fst snd].
    destruct (write_file e (docfile args)); cbn [fst snd]; discriminate.
  - intros H. injection H as ->.
    destruct (Hfails _ eq_refl) as [l1 [p [l2 [Hglob [Hp [Hok Hfail]]]]]].
    destruct (readlines e p) as [ls|] eqn:Hr.
    + exists l1, p, l2, ls. rewrite (process_file_snd _ _ _ Hr) in Hfail.
      split; [assumption|]. split; [assumption|]. split; [assumption|].
      split; [assumption|]. split; [assumption|].
      destruct (process_lines_classes p ls) as [[fd Hfd] | Hraise];
        congruence.
    + exfalso. unfold readlines in Hr.
      unfold process_file, io_bind, print, lift in Hfail.
      cbn [fst snd] in Hfail.
      destruct (read_file e p); cbn [fst snd] in Hfail; discriminate.
  - discriminate.
Qed.

Lemma main_index_error_source_witness :
  exists l1 p l2 ls,
    glob (env_of ["lib/__init__.py"; "lib/open.py"; "lib/util.py"]
            lines_open_end) (sourcedir args_lib ++ "/*.py")
    = (l1 ++ p :: l2)%list /\
    contains "__" p = false /\
    (forall q, In q (selected l1) ->
               exists fd,
                 snd (process_file
                        (env_of ["lib/__init__.py"; "lib/open.py";
                                 "lib/util.py"] lines_open_end) q) = Ok fd) /\
    readlines (env_of ["lib/__init__.py"; "lib/open.py"; "lib/util.py"]
                 lines_open_end) p = Some ls /\
    process_lines p ls = Raise (IndexError 5) /\
    5 = Z.of_nat (List.length ls).
Proof.
  apply (main_index_error_source
           (env_of ["lib/__init__.py"; "lib/open.py"; "lib/util.py"]
              lines_open_end) args_lib 5).
  vm_compute. reflexivity.
Defined.


